(** * Bento MCP server: the tool dispatcher of [src/index.ts]

    A shallow embedding of the tool handlers registered by
    [src/index.ts] and of the three helpers they share
    ([getBentoClient], [formatResponse], [handleError]), together with
    the properties of the dispatch-and-formatting convention.

    Conventions of the embedding:
    - a JavaScript value that reaches the helpers is a [value]: the
      JSON-shaped data the Bento SDK hands back (plus [undefined]);
      objects keep their properties in enumeration order;
    - an optional argument ([z.….optional()]) is an [option]; [None] is
      [undefined];
    - a handler is a computation in the monad [M]: it may throw, and it
      appends every call it delegates to the Bento SDK to a log. *)

From Stdlib Require Import String Ascii List ZArith Bool Arith Lia DecimalString.
Import ListNotations.
Local Open Scope list_scope.
Local Open Scope string_scope.
Set Warnings "-register-all".

(* ===================================================================== *)
(** ** JavaScript values *)
(* ===================================================================== *)

Module JS.

(** A JavaScript number, as far as the tools see one: an integer-valued
    double in the safe range (counts, identifiers, amounts in cents),
    which prints as its decimal digits, or one of the three non-finite
    doubles. *)
Inductive number : Type :=
| Finite (z : Z)
| NaN
| Infinity
| NegInfinity.

Inductive value : Type :=
| VUndefined
| VNull
| VBool (b : bool)
| VNumber (n : number)
| VString (s : string)
| VArray (elements : list value)
| VObject (properties : list (string * value)).

(** What [throw] carries: an [Error] instance with its [message], or
    any other value. *)
Inductive thrown : Type :=
| ErrorObject (message : string)
| Thrown (v : value).

Definition LF : string := String "010"%char EmptyString.
Definition DQUOTE : string := String "034"%char EmptyString.
Definition BACKSLASH : string := String "092"%char EmptyString.

Fixpoint join (sep : string) (parts : list string) : string :=
  match parts with
  | [] => EmptyString
  | [p] => p
  | p :: rest => p ++ sep ++ join sep rest
  end.

(** [typeof v]. *)
Definition typeof (v : value) : string :=
  match v with
  | VUndefined => "undefined"
  | VNull => "object"
  | VBool _ => "boolean"
  | VNumber _ => "number"
  | VString _ => "string"
  | VArray _ => "object"
  | VObject _ => "object"
  end.

(** [Number::toString] in radix 10, on the numbers of the model. *)
Definition Number_toString (n : number) : string :=
  match n with
  | Finite z => NilZero.string_of_int (Z.to_int z)
  | NaN => "NaN"
  | Infinity => "Infinity"
  | NegInfinity => "-Infinity"
  end.

Definition isFinite (n : number) : bool :=
  match n with
  | Finite _ => true
  | _ => false
  end.

(** [a > b] on numbers: false as soon as one side is [NaN]. *)
Definition number_gt (a b : number) : bool :=
  match a, b with
  | NaN, _ | _, NaN => false
  | Finite x, Finite y => Z.ltb y x
  | Infinity, Infinity => false
  | Infinity, _ => true
  | _, Infinity => false
  | NegInfinity, _ => false
  | Finite _, NegInfinity => true
  end.

(** [!s] for an optional string: [undefined] and the empty string are
    the falsy ones. *)
Definition falsy (o : option string) : bool :=
  match o with
  | None => true
  | Some s => String.eqb s EmptyString
  end.

Definition truthy (o : option string) : bool := negb (falsy o).

(** [String(v)]: the [ToString] conversion.  An array joins the
    conversions of its elements with a comma, [null] and [undefined]
    elements counting as empty; a plain object is [[object Object]].
    That is the conversion of an object that inherits [toString] from
    [Object.prototype]: an object with a [toString] or [valueOf]
    property of its own is not an object of this model. *)
Fixpoint String_ (v : value) : string :=
  match v with
  | VUndefined => "undefined"
  | VNull => "null"
  | VBool b => if b then "true" else "false"
  | VNumber n => Number_toString n
  | VString s => s
  | VArray l =>
      join ","
        (map (fun x => match x with
                       | VUndefined | VNull => EmptyString
                       | _ => String_ x
                       end) l)
  | VObject _ => "[object Object]"
  end.

(** *** [JSON.stringify] *)

Definition hex_digit (n : nat) : ascii :=
  match n with
  | 0 => "0" | 1 => "1" | 2 => "2" | 3 => "3" | 4 => "4"
  | 5 => "5" | 6 => "6" | 7 => "7" | 8 => "8" | 9 => "9"
  | 10 => "a" | 11 => "b" | 12 => "c" | 13 => "d" | 14 => "e"
  | _ => "f"
  end%char.

(** One code unit of [QuoteJSONString]: the two-character escapes, the
    [\u00XX] form for the other control characters, the character
    itself otherwise. *)
Definition quote_char (c : ascii) : string :=
  let n := nat_of_ascii c in
  if Nat.eqb n 8 then BACKSLASH ++ "b"
  else if Nat.eqb n 9 then BACKSLASH ++ "t"
  else if Nat.eqb n 10 then BACKSLASH ++ "n"
  else if Nat.eqb n 12 then BACKSLASH ++ "f"
  else if Nat.eqb n 13 then BACKSLASH ++ "r"
  else if Nat.eqb n 34 then BACKSLASH ++ DQUOTE
  else if Nat.eqb n 92 then BACKSLASH ++ BACKSLASH
  else if Nat.ltb n 32 then
    BACKSLASH ++ "u00"
      ++ String (hex_digit (n / 16)) (String (hex_digit (n mod 16)) EmptyString)
  else String c EmptyString.

Fixpoint quote_chars (s : string) : string :=
  match s with
  | EmptyString => EmptyString
  | String c rest => quote_char c ++ quote_chars rest
  end.

Definition QuoteJSONString (s : string) : string :=
  DQUOTE ++ quote_chars s ++ DQUOTE.

Fixpoint spaces (n : nat) : string :=
  match n with
  | O => EmptyString
  | S k => String " "%char (spaces k)
  end.

(** The gap of [JSON.stringify(_, _, space)] for a numeric [space]. *)
Definition gap_of_space (space : nat) : string := spaces (Nat.min 10 space).

Definition is_empty (s : string) : bool :=
  match s with
  | EmptyString => true
  | _ => false
  end.

(** The bracketed list that ends [SerializeJSONArray] and
    [SerializeJSONObject]: [stepback] is the indentation of the
    enclosing level, [indent] the one of the members. *)
Definition bracketed (opening closing gap stepback indent : string)
    (partial : list string) : string :=
  match partial with
  | [] => opening ++ closing
  | _ =>
      if is_empty gap then opening ++ join "," partial ++ closing
      else opening ++ LF ++ indent
             ++ join ("," ++ LF ++ indent) partial
             ++ LF ++ stepback ++ closing
  end.

Definition member (gap key str : string) : string :=
  QuoteJSONString key ++ ":" ++ (if is_empty gap then EmptyString else " ") ++ str.

(** [SerializeJSONProperty]; [None] is the [undefined] it answers for a
    value that has no JSON form.  [indent] is the indentation already
    in force. *)
Fixpoint SerializeJSONProperty (gap indent : string) (v : value) : option string :=
  match v with
  | VUndefined => None
  | VNull => Some "null"
  | VBool b => Some (if b then "true" else "false")
  | VNumber n => Some (if isFinite n then Number_toString n else "null")
  | VString s => Some (QuoteJSONString s)
  | VArray l =>
      let stepback := indent in
      let indent := indent ++ gap in
      Some (bracketed "[" "]" gap stepback indent
              (map (fun x => match SerializeJSONProperty gap indent x with
                             | Some str => str
                             | None => "null"
                             end) l))
  | VObject ps =>
      let stepback := indent in
      let indent := indent ++ gap in
      Some (bracketed "{" "}" gap stepback indent
              (flat_map (fun p => match SerializeJSONProperty gap indent (snd p) with
                                  | Some str => [member gap (fst p) str]
                                  | None => []
                                  end) ps))
  end.

(** [JSON.stringify(v, null, space)]. *)
Definition JSON_stringify (v : value) (space : nat) : option string :=
  SerializeJSONProperty (gap_of_space space) EmptyString v.

End JS.
Import JS.

(* ===================================================================== *)
(** ** The Bento SDK, as the handlers use it *)
(* ===================================================================== *)

Module Bento.

(** A plain object: its own properties in enumeration order. *)
Definition object : Type := list (string * value).

(** The client [new Analytics({ authentication: { publishableKey,
    secretKey }, siteUuid })] builds. *)
Record Analytics : Type := {
  publishableKey : string;
  secretKey : string;
  siteUuid : string
}.

Inductive SubscriberQuery : Type :=
| by_email (email : string)
| by_uuid (uuid : string).

Inductive BlacklistQuery : Type :=
| by_domain (domain : string)
| by_ipAddress (ipAddress : string).

Record PurchaseItem : Type := {
  product_id : option string;
  product_sku : option string;
  product_name : option string;
  quantity : option number;
  product_price : option number
}.

Record PurchaseCart : Type := {
  abandoned_checkout_url : option string;
  items : option (list PurchaseItem)
}.

Record PurchaseDetails : Type := {
  unique_key : string;
  value_currency : string;
  value_amount : number;
  cart : option PurchaseCart
}.

Record TransactionalEmail : Type := {
  to : string;
  from : string;
  subject : string;
  html_body : string;
  transactional : bool;
  personalizations : option (list (string * string))
}.

(** [z.enum(["plain", "html", "markdown"])]. *)
Inductive BroadcastType : Type := type_plain | type_html | type_markdown.

Record Broadcast : Type := {
  name : string;
  broadcast_subject : string;
  content : string;
  type : BroadcastType;
  from_name : string;
  from_email : string;
  inclusive_tags : option string;
  exclusive_tags : option string;
  segment_id : option string;
  batch_size_per_hour : number
}.

(** One delegated call: the SDK operation with the argument the
    handler builds for it. *)
Inductive Call : Type :=
| Subscribers_getSubscribers (q : SubscriberQuery)
| Subscribers_createSubscriber (email : string)
| upsertSubscriber (email : string) (fields : option object)
    (tags remove_tags : option string)
| addSubscriber (email : string) (fields : option object)
| removeSubscriber (email : string)
| tagSubscriber (email tagName : string)
| Commands_removeTag (email tagName : string)
| Tags_getTags
| Tags_createTag (name : string)
| track (email type : string) (fields details : option object)
| trackPurchase (email : string) (purchaseDetails : PurchaseDetails)
| updateFields (email : string) (fields : object)
| Fields_getFields
| Fields_createField (key : string)
| Stats_getSiteStats
| Stats_getSegmentStats (segmentId : string)
| Stats_getReportStats (reportId : string)
| Batch_sendTransactionalEmails (emails : list TransactionalEmail)
| Broadcasts_getBroadcasts
| Broadcasts_createBroadcast (broadcasts : list Broadcast)
| Sequences_getSequences
| Workflows_getWorkflows
| EmailTemplates_getEmailTemplate (id : number)
| EmailTemplates_updateEmailTemplate (id : number) (subject html : option string)
| Batch_importSubscribers (subscribers : list object)
| Experimental_validateEmail (email : string) (name ip userAgent : option string)
| Experimental_guessGender (name : string)
| Experimental_geoLocateIP (ip : string)
| Experimental_getBlacklistStatus (q : BlacklistQuery)
| Experimental_getContentModeration (content : string)
| Forms_getResponses (formId : string).

(** What the promise of each operation resolves to, by the SDK's
    declared types: a count for the two batch operations, a boolean
    for the email validation, data otherwise. *)
Definition resolves_to (c : Call) : Type :=
  match c with
  | Batch_sendTransactionalEmails _ => number
  | Batch_importSubscribers _ => number
  | Experimental_validateEmail _ _ _ _ => bool
  | _ => value
  end.

End Bento.
Import Bento.

(* ===================================================================== *)
(** ** Computations: faults and the log of delegated calls *)
(* ===================================================================== *)

Module Effect.

Inductive Completion (A : Type) : Type :=
| Normal (a : A)
| Throw (e : thrown).
Arguments Normal {A} a.
Arguments Throw {A} e.

(** The remote service behind a client: how each call settles. *)
Definition Remote : Type := Analytics -> forall c : Call, Completion (resolves_to c).

(** What an invocation runs against: [process.env] and the remote
    service. *)
Record World : Type := {
  process_env : string -> option string;
  remote : Remote
}.

(** A computation reads the world, and extends the log of the calls
    delegated so far. *)
Definition M (A : Type) : Type := World -> list Call -> Completion A * list Call.

Definition ret {A} (a : A) : M A := fun _ log => (Normal a, log).

Definition bind {A B} (m : M A) (k : A -> M B) : M B :=
  fun w log =>
    match m w log with
    | (Normal a, log') => k a w log'
    | (Throw e, log') => (Throw e, log')
    end.

Definition throw {A} (e : thrown) : M A := fun _ log => (Throw e, log).

(** [try { body } catch (error) { handler }]. *)
Definition try_catch {A} (body : M A) (handler : thrown -> M A) : M A :=
  fun w log =>
    match body w log with
    | (Normal a, log') => (Normal a, log')
    | (Throw e, log') => handler e w log'
    end.

(** [process.env.NAME]. *)
Definition getenv (name : string) : M (option string) :=
  fun w log => (Normal (process_env w name), log).

(** [await bento.….operation(args)]: the call is logged, and a rejected
    promise throws at the [await]. *)
Definition await (bento : Analytics) (c : Call) : M (resolves_to c) :=
  fun w log => (remote w bento c, (log ++ [c])%list).

Definition run {A} (m : M A) (w : World) : Completion A * list Call := m w [].

End Effect.
Import Effect.

Declare Scope js_scope.
Delimit Scope js_scope with js.
Notation "x <- m ;; k" := (bind m (fun x => k))
  (at level 100, m at next level, right associativity) : js_scope.
Local Open Scope js_scope.

(* ===================================================================== *)
(** ** The helpers of [src/index.ts] *)
(* ===================================================================== *)

(** The narrowing TypeScript performs once a test has excluded
    [undefined] (also the [!] of [uuid!]). *)
Definition narrow (o : option string) : string :=
  match o with
  | Some s => s
  | None => EmptyString
  end.

Definition missing_variables : string :=
  "Missing required environment variables: BENTO_PUBLISHABLE_KEY, BENTO_SECRET_KEY, BENTO_SITE_UUID".

(** [getBentoClient] (lines 9-27).  The constructor of the SDK is not
    part of [src/index.ts]: [new Analytics(...)] is taken to keep the
    three strings it is given, and a constructor that throws is outside
    the model. *)
Definition getBentoClient : M Analytics :=
  publishableKey <- getenv "BENTO_PUBLISHABLE_KEY" ;;
  secretKey <- getenv "BENTO_SECRET_KEY" ;;
  siteUuid <- getenv "BENTO_SITE_UUID" ;;
  if falsy publishableKey || falsy secretKey || falsy siteUuid then
    throw (ErrorObject missing_variables)
  else
    ret {| Bento.publishableKey := narrow publishableKey;
           Bento.secretKey := narrow secretKey;
           Bento.siteUuid := narrow siteUuid |}.

(** [formatResponse] (lines 36-47).  The answer is what the JavaScript
    function returns: [None] would be the [undefined] of
    [JSON.stringify]. *)
Definition formatResponse (data : value) : option string :=
  match data with
  | VNull | VUndefined => Some "No data returned"
  | VBool b => Some (if b then "Success" else "Operation failed")
  | VNumber n => Some ("Count: " ++ Number_toString n)
  | _ => JSON_stringify data 2
  end.

(** [handleError] (lines 50-55). *)
Definition handleError (error : thrown) : string :=
  match error with
  | ErrorObject message => "Error: " ++ message
  | Thrown v => "Error: " ++ String_ v
  end.

(* ===================================================================== *)
(** ** What a handler returns *)
(* ===================================================================== *)

Module Mcp.

Record ContentItem : Type := {
  type : string;
  text : option string
}.

Record ToolResult : Type := {
  content : list ContentItem
}.

End Mcp.

(** [{ content: [{ type: "text", text }] }]. *)
Definition reply (text : option string) : Mcp.ToolResult :=
  {| Mcp.content := [ {| Mcp.type := "text"; Mcp.text := text |} ] |}.

(** The [catch] clause every handler ends with. *)
Definition caught (error : thrown) : M Mcp.ToolResult :=
  ret (reply (Some (handleError error))).

(** [z.….default(d)]: the default stands in for an argument left out. *)
Definition zod_default {A} (d : A) (arg : option A) : A :=
  match arg with
  | Some a => a
  | None => d
  end.

(** [a ?? b]. *)
Definition nullish {A} (a : option A) (b : A) : A :=
  match a with
  | Some x => x
  | None => b
  end.

(** *** Plain objects *)

Definition get (o : object) (key : string) : value :=
  match find (fun p => String.eqb (fst p) key) o with
  | Some p => snd p
  | None => VUndefined
  end.

(** The rest of a destructuring that takes [keys] out. *)
Definition rest_without (keys : list string) (o : object) : object :=
  filter (fun p => negb (existsb (String.eqb (fst p)) keys)) o.

(** Defining [key] on a copy of [o]: in place when [o] has the key, as
    a last property otherwise. *)
Fixpoint set (o : object) (key : string) (v : value) : object :=
  match o with
  | [] => [(key, v)]
  | (k, old) :: ps =>
      if String.eqb k key then (k, v) :: ps else (k, old) :: set ps key v
  end.

(** *** Arguments of the purchase tool *)

Module Args.

Record CartItem : Type := {
  productId : option string;
  productSku : option string;
  productName : option string;
  quantity : option number;
  productPrice : option number
}.

Record Cart : Type := {
  abandonedCheckoutUrl : option string;
  items : option (list CartItem)
}.

End Args.

(* ===================================================================== *)
(** ** The handlers, in the order [src/index.ts] registers them *)
(* ===================================================================== *)

Module Handlers.

(** Subscriber tools *)

Definition bento_get_subscriber (email uuid : option string) : M Mcp.ToolResult :=
  try_catch
    (if falsy email && falsy uuid then
       ret (reply (Some "Either email or uuid is required"))
     else
       bento <- getBentoClient ;;
       subscriber <- await bento
         (Subscribers_getSubscribers
            (if truthy email then by_email (narrow email) else by_uuid (narrow uuid))) ;;
       ret (reply (formatResponse subscriber)))
    caught.

Definition bento_create_subscriber (email : string) : M Mcp.ToolResult :=
  try_catch
    (bento <- getBentoClient ;;
     subscriber <- await bento (Subscribers_createSubscriber email) ;;
     ret (reply (formatResponse subscriber)))
    caught.

Definition bento_upsert_subscriber (email : string) (fields : option object)
    (tags removeTags : option string) : M Mcp.ToolResult :=
  try_catch
    (bento <- getBentoClient ;;
     subscriber <- await bento (upsertSubscriber email fields tags removeTags) ;;
     ret (reply (formatResponse subscriber)))
    caught.

Definition bento_add_subscriber (email : string) (fields : option object)
    : M Mcp.ToolResult :=
  try_catch
    (bento <- getBentoClient ;;
     result <- await bento (addSubscriber email fields) ;;
     ret (reply (formatResponse result)))
    caught.

Definition bento_remove_subscriber (email : string) : M Mcp.ToolResult :=
  try_catch
    (bento <- getBentoClient ;;
     result <- await bento (removeSubscriber email) ;;
     ret (reply (formatResponse result)))
    caught.

(** Tagging tools *)

Definition bento_tag_subscriber (email tagName : string) : M Mcp.ToolResult :=
  try_catch
    (bento <- getBentoClient ;;
     result <- await bento (tagSubscriber email tagName) ;;
     ret (reply (formatResponse result)))
    caught.

Definition bento_remove_tag (email tagName : string) : M Mcp.ToolResult :=
  try_catch
    (bento <- getBentoClient ;;
     result <- await bento (Commands_removeTag email tagName) ;;
     ret (reply (formatResponse result)))
    caught.

Definition bento_list_tags : M Mcp.ToolResult :=
  try_catch
    (bento <- getBentoClient ;;
     tags <- await bento Tags_getTags ;;
     ret (reply (formatResponse tags)))
    caught.

Definition bento_create_tag (name : string) : M Mcp.ToolResult :=
  try_catch
    (bento <- getBentoClient ;;
     tags <- await bento (Tags_createTag name) ;;
     ret (reply (formatResponse tags)))
    caught.

(** Event tracking tools *)

Definition bento_track_event (email type : string) (fields details : option object)
    : M Mcp.ToolResult :=
  try_catch
    (bento <- getBentoClient ;;
     result <- await bento (track email type fields details) ;;
     ret (reply (formatResponse result)))
    caught.

Definition purchase_item (item : Args.CartItem) : PurchaseItem :=
  {| product_id := Args.productId item;
     product_sku := Args.productSku item;
     product_name := Args.productName item;
     quantity := Args.quantity item;
     product_price := Args.productPrice item |}.

Definition bento_track_purchase (email orderId : string) (amount : number)
    (currency : string) (cart : option Args.Cart) : M Mcp.ToolResult :=
  try_catch
    (bento <- getBentoClient ;;
     result <- await bento
       (trackPurchase email
          {| unique_key := orderId;
             value_currency := currency;
             value_amount := amount;
             Bento.cart :=
               match cart with
               | Some cart =>
                   Some {| abandoned_checkout_url := Args.abandonedCheckoutUrl cart;
                           items := option_map (map purchase_item) (Args.items cart) |}
               | None => None
               end |}) ;;
     ret (reply (formatResponse result)))
    caught.

(** Field tools *)

Definition bento_update_fields (email : string) (fields : object) : M Mcp.ToolResult :=
  try_catch
    (bento <- getBentoClient ;;
     result <- await bento (updateFields email fields) ;;
     ret (reply (formatResponse result)))
    caught.

Definition bento_list_fields : M Mcp.ToolResult :=
  try_catch
    (bento <- getBentoClient ;;
     fields <- await bento Fields_getFields ;;
     ret (reply (formatResponse fields)))
    caught.

Definition bento_create_field (key : string) : M Mcp.ToolResult :=
  try_catch
    (bento <- getBentoClient ;;
     fields <- await bento (Fields_createField key) ;;
     ret (reply (formatResponse fields)))
    caught.

(** Statistics tools *)

Definition bento_get_site_stats : M Mcp.ToolResult :=
  try_catch
    (bento <- getBentoClient ;;
     stats <- await bento Stats_getSiteStats ;;
     ret (reply (formatResponse stats)))
    caught.

Definition bento_get_segment_stats (segmentId : string) : M Mcp.ToolResult :=
  try_catch
    (bento <- getBentoClient ;;
     stats <- await bento (Stats_getSegmentStats segmentId) ;;
     ret (reply (formatResponse stats)))
    caught.

Definition bento_get_report_stats (reportId : string) : M Mcp.ToolResult :=
  try_catch
    (bento <- getBentoClient ;;
     stats <- await bento (Stats_getReportStats reportId) ;;
     ret (reply (formatResponse stats)))
    caught.

(** Email tools *)

Definition bento_send_email (to from subject htmlBody : string) (transactional : bool)
    (personalizations : option (list (string * string))) : M Mcp.ToolResult :=
  try_catch
    (bento <- getBentoClient ;;
     result <- await bento
       (Batch_sendTransactionalEmails
          [ {| Bento.to := to;
               Bento.from := from;
               Bento.subject := subject;
               html_body := htmlBody;
               Bento.transactional := transactional;
               Bento.personalizations := personalizations |} ]) ;;
     ret (reply (Some (if number_gt result (Finite 0)
                       then "Email sent successfully"
                       else "Failed to send email"))))
    caught.

(** Broadcast tools *)

Definition bento_list_broadcasts : M Mcp.ToolResult :=
  try_catch
    (bento <- getBentoClient ;;
     broadcasts <- await bento Broadcasts_getBroadcasts ;;
     ret (reply (formatResponse broadcasts)))
    caught.

Definition bento_create_broadcast (name subject content : string) (type : BroadcastType)
    (fromName fromEmail : string) (inclusiveTags exclusiveTags segmentId : option string)
    (batchSizePerHour : option number) : M Mcp.ToolResult :=
  try_catch
    (bento <- getBentoClient ;;
     broadcasts <- await bento
       (Broadcasts_createBroadcast
          [ {| Bento.name := name;
               broadcast_subject := subject;
               Bento.content := content;
               Bento.type := type;
               from_name := fromName;
               from_email := fromEmail;
               inclusive_tags := inclusiveTags;
               exclusive_tags := exclusiveTags;
               segment_id := segmentId;
               batch_size_per_hour := nullish batchSizePerHour (Finite 1000) |} ]) ;;
     ret (reply (formatResponse broadcasts)))
    caught.

(** Sequence and workflow tools *)

Definition bento_list_sequences : M Mcp.ToolResult :=
  try_catch
    (bento <- getBentoClient ;;
     sequences <- await bento Sequences_getSequences ;;
     ret (reply (formatResponse sequences)))
    caught.

Definition bento_list_workflows : M Mcp.ToolResult :=
  try_catch
    (bento <- getBentoClient ;;
     workflows <- await bento Workflows_getWorkflows ;;
     ret (reply (formatResponse workflows)))
    caught.

Definition bento_get_email_template (id : number) : M Mcp.ToolResult :=
  try_catch
    (bento <- getBentoClient ;;
     template <- await bento (EmailTemplates_getEmailTemplate id) ;;
     ret (reply (formatResponse template)))
    caught.

Definition bento_update_email_template (id : number) (subject html : option string)
    : M Mcp.ToolResult :=
  try_catch
    (if falsy subject && falsy html then
       ret (reply (Some "Either subject or html (or both) is required to update"))
     else
       bento <- getBentoClient ;;
       template <- await bento (EmailTemplates_updateEmailTemplate id subject html) ;;
       ret (reply (formatResponse template)))
    caught.

(** Batch tools *)

(** [const { firstName, lastName, ...rest } = s;
     return { ...rest, first_name: firstName, last_name: lastName }]. *)
Definition imported_subscriber (s : object) : object :=
  let firstName := get s "firstName" in
  let lastName := get s "lastName" in
  let rest := rest_without ["firstName"; "lastName"] s in
  set (set rest "first_name" firstName) "last_name" lastName.

Definition bento_batch_import_subscribers (subscribers : list object)
    : M Mcp.ToolResult :=
  try_catch
    (if Nat.ltb 1000 (length subscribers) then
       ret (reply (Some "Error: Maximum 1000 subscribers per batch"))
     else
       bento <- getBentoClient ;;
       count <- await bento
         (Batch_importSubscribers (map imported_subscriber subscribers)) ;;
       ret (reply (Some ("Successfully imported " ++ Number_toString count
                           ++ " subscribers"))))
    caught.

(** Experimental tools *)

Definition bento_validate_email (email : string) (name ip userAgent : option string)
    : M Mcp.ToolResult :=
  try_catch
    (bento <- getBentoClient ;;
     isValid <- await bento (Experimental_validateEmail email name ip userAgent) ;;
     ret (reply (Some (if (isValid : bool)
                       then "Email is valid"
                       else "Email appears to be invalid or risky"))))
    caught.

Definition bento_guess_gender (name : string) : M Mcp.ToolResult :=
  try_catch
    (bento <- getBentoClient ;;
     result <- await bento (Experimental_guessGender name) ;;
     ret (reply (formatResponse result)))
    caught.

Definition bento_geolocate_ip (ip : string) : M Mcp.ToolResult :=
  try_catch
    (bento <- getBentoClient ;;
     location <- await bento (Experimental_geoLocateIP ip) ;;
     ret (reply (formatResponse location)))
    caught.

Definition bento_check_blacklist (domain ip : option string) : M Mcp.ToolResult :=
  try_catch
    (if falsy domain && falsy ip then
       ret (reply (Some "Either domain or ip is required"))
     else
       bento <- getBentoClient ;;
       result <- await bento
         (Experimental_getBlacklistStatus
            (if truthy domain then by_domain (narrow domain)
             else by_ipAddress (narrow ip))) ;;
       ret (reply (formatResponse result)))
    caught.

Definition bento_moderate_content (content : string) : M Mcp.ToolResult :=
  try_catch
    (bento <- getBentoClient ;;
     result <- await bento (Experimental_getContentModeration content) ;;
     ret (reply (formatResponse result)))
    caught.

(** Form tools *)

Definition bento_get_form_responses (formId : string) : M Mcp.ToolResult :=
  try_catch
    (bento <- getBentoClient ;;
     responses <- await bento (Forms_getResponses formId) ;;
     ret (reply (formatResponse responses)))
    caught.

End Handlers.

(* ===================================================================== *)
(** ** The registered tools *)
(* ===================================================================== *)

(** An invocation: the tool and the arguments the caller gives, typed
    by the tool's schema.  An argument the schema marks [optional] or
    gives a [default] may be left out.  The types carry the types of
    the schema; its format constraint, [z.string().email()], is
    [schema_accepts] below.  The host checks the arguments against the
    schema before the handler runs. *)
Inductive Invocation : Type :=
| get_subscriber (email uuid : option string)
| create_subscriber (email : string)
| upsert_subscriber (email : string) (fields : option object)
    (tags removeTags : option string)
| add_subscriber (email : string) (fields : option object)
| remove_subscriber (email : string)
| tag_subscriber (email tagName : string)
| remove_tag (email tagName : string)
| list_tags
| create_tag (name : string)
| track_event (email type : string) (fields details : option object)
| track_purchase (email orderId : string) (amount : number)
    (currency : option string) (cart : option Args.Cart)
| update_fields (email : string) (fields : object)
| list_fields
| create_field (key : string)
| get_site_stats
| get_segment_stats (segmentId : string)
| get_report_stats (reportId : string)
| send_email (to from subject htmlBody : string) (transactional : option bool)
    (personalizations : option (list (string * string)))
| list_broadcasts
| create_broadcast (name subject content : string) (type : option BroadcastType)
    (fromName fromEmail : string) (inclusiveTags exclusiveTags segmentId : option string)
    (batchSizePerHour : option number)
| list_sequences
| list_workflows
| get_email_template (id : number)
| update_email_template (id : number) (subject html : option string)
| batch_import_subscribers (subscribers : list object)
| validate_email (email : string) (name ip userAgent : option string)
| guess_gender (name : string)
| geolocate_ip (ip : string)
| check_blacklist (domain ip : option string)
| moderate_content (content : string)
| get_form_responses (formId : string).

(** [server.tool(name, description, schema, handler)]: the schema fills
    in its defaults, then the handler runs. *)
Definition server_tool (i : Invocation) : M Mcp.ToolResult :=
  match i with
  | get_subscriber email uuid => Handlers.bento_get_subscriber email uuid
  | create_subscriber email => Handlers.bento_create_subscriber email
  | upsert_subscriber email fields tags removeTags =>
      Handlers.bento_upsert_subscriber email fields tags removeTags
  | add_subscriber email fields => Handlers.bento_add_subscriber email fields
  | remove_subscriber email => Handlers.bento_remove_subscriber email
  | tag_subscriber email tagName => Handlers.bento_tag_subscriber email tagName
  | remove_tag email tagName => Handlers.bento_remove_tag email tagName
  | list_tags => Handlers.bento_list_tags
  | create_tag name => Handlers.bento_create_tag name
  | track_event email type fields details =>
      Handlers.bento_track_event email type fields details
  | track_purchase email orderId amount currency cart =>
      Handlers.bento_track_purchase email orderId amount (zod_default "USD" currency) cart
  | update_fields email fields => Handlers.bento_update_fields email fields
  | list_fields => Handlers.bento_list_fields
  | create_field key => Handlers.bento_create_field key
  | get_site_stats => Handlers.bento_get_site_stats
  | get_segment_stats segmentId => Handlers.bento_get_segment_stats segmentId
  | get_report_stats reportId => Handlers.bento_get_report_stats reportId
  | send_email to from subject htmlBody transactional personalizations =>
      Handlers.bento_send_email to from subject htmlBody
        (zod_default true transactional) personalizations
  | list_broadcasts => Handlers.bento_list_broadcasts
  | create_broadcast name subject content type fromName fromEmail
      inclusiveTags exclusiveTags segmentId batchSizePerHour =>
      Handlers.bento_create_broadcast name subject content (zod_default type_html type)
        fromName fromEmail inclusiveTags exclusiveTags segmentId batchSizePerHour
  | list_sequences => Handlers.bento_list_sequences
  | list_workflows => Handlers.bento_list_workflows
  | get_email_template id => Handlers.bento_get_email_template id
  | update_email_template id subject html =>
      Handlers.bento_update_email_template id subject html
  | batch_import_subscribers subscribers =>
      Handlers.bento_batch_import_subscribers subscribers
  | validate_email email name ip userAgent =>
      Handlers.bento_validate_email email name ip userAgent
  | guess_gender name => Handlers.bento_guess_gender name
  | geolocate_ip ip => Handlers.bento_geolocate_ip ip
  | check_blacklist domain ip => Handlers.bento_check_blacklist domain ip
  | moderate_content content => Handlers.bento_moderate_content content
  | get_form_responses formId => Handlers.bento_get_form_responses formId
  end.

(** The outcome of an invocation and the calls it delegated. *)
Definition invoke (w : World) (i : Invocation) : Completion Mcp.ToolResult * list Call :=
  run (server_tool i) w.

(* ===================================================================== *)
(** ** Reading the handlers: check, credentials, one call, rendering *)
(* ===================================================================== *)

(** Whether [getBentoClient] finds a credential missing. *)
Definition credentials_missing (w : World) : bool :=
  falsy (process_env w "BENTO_PUBLISHABLE_KEY")
  || falsy (process_env w "BENTO_SECRET_KEY")
  || falsy (process_env w "BENTO_SITE_UUID").

(** The client [getBentoClient] builds when none is missing. *)
Definition client_of (w : World) : Analytics :=
  {| publishableKey := narrow (process_env w "BENTO_PUBLISHABLE_KEY");
     secretKey := narrow (process_env w "BENTO_SECRET_KEY");
     siteUuid := narrow (process_env w "BENTO_SITE_UUID") |}.

(** The text a handler answers before it resolves the credentials, when
    its own test on the arguments fails (lines 70, 800, 847 and 974). *)
Definition argument_check (i : Invocation) : option string :=
  match i with
  | get_subscriber email uuid =>
      if falsy email && falsy uuid then Some "Either email or uuid is required" else None
  | update_email_template _ subject html =>
      if falsy subject && falsy html
      then Some "Either subject or html (or both) is required to update" else None
  | batch_import_subscribers subscribers =>
      if Nat.ltb 1000 (length subscribers)
      then Some "Error: Maximum 1000 subscribers per batch" else None
  | check_blacklist domain ip =>
      if falsy domain && falsy ip then Some "Either domain or ip is required" else None
  | _ => None
  end.

(** The one call a handler delegates once its check and the credentials
    are through. *)
Definition delegated (i : Invocation) : Call :=
  match i with
  | get_subscriber email uuid =>
      Subscribers_getSubscribers
        (if truthy email then by_email (narrow email) else by_uuid (narrow uuid))
  | create_subscriber email => Subscribers_createSubscriber email
  | upsert_subscriber email fields tags removeTags =>
      upsertSubscriber email fields tags removeTags
  | add_subscriber email fields => addSubscriber email fields
  | remove_subscriber email => removeSubscriber email
  | tag_subscriber email tagName => tagSubscriber email tagName
  | remove_tag email tagName => Commands_removeTag email tagName
  | list_tags => Tags_getTags
  | create_tag name => Tags_createTag name
  | track_event email type fields details => track email type fields details
  | track_purchase email orderId amount currency cart =>
      trackPurchase email
        {| unique_key := orderId;
           value_currency := zod_default "USD" currency;
           value_amount := amount;
           Bento.cart :=
             match cart with
             | Some cart =>
                 Some {| abandoned_checkout_url := Args.abandonedCheckoutUrl cart;
                         items := option_map (map Handlers.purchase_item) (Args.items cart) |}
             | None => None
             end |}
  | update_fields email fields => updateFields email fields
  | list_fields => Fields_getFields
  | create_field key => Fields_createField key
  | get_site_stats => Stats_getSiteStats
  | get_segment_stats segmentId => Stats_getSegmentStats segmentId
  | get_report_stats reportId => Stats_getReportStats reportId
  | send_email to from subject htmlBody transactional personalizations =>
      Batch_sendTransactionalEmails
        [ {| Bento.to := to;
             Bento.from := from;
             Bento.subject := subject;
             html_body := htmlBody;
             Bento.transactional := zod_default true transactional;
             Bento.personalizations := personalizations |} ]
  | list_broadcasts => Broadcasts_getBroadcasts
  | create_broadcast name subject content type fromName fromEmail
      inclusiveTags exclusiveTags segmentId batchSizePerHour =>
      Broadcasts_createBroadcast
        [ {| Bento.name := name;
             broadcast_subject := subject;
             Bento.content := content;
             Bento.type := zod_default type_html type;
             from_name := fromName;
             from_email := fromEmail;
             inclusive_tags := inclusiveTags;
             exclusive_tags := exclusiveTags;
             segment_id := segmentId;
             batch_size_per_hour := nullish batchSizePerHour (Finite 1000) |} ]
  | list_sequences => Sequences_getSequences
  | list_workflows => Workflows_getWorkflows
  | get_email_template id => EmailTemplates_getEmailTemplate id
  | update_email_template id subject html =>
      EmailTemplates_updateEmailTemplate id subject html
  | batch_import_subscribers subscribers =>
      Batch_importSubscribers (map Handlers.imported_subscriber subscribers)
  | validate_email email name ip userAgent =>
      Experimental_validateEmail email name ip userAgent
  | guess_gender name => Experimental_guessGender name
  | geolocate_ip ip => Experimental_geoLocateIP ip
  | check_blacklist domain ip =>
      Experimental_getBlacklistStatus
        (if truthy domain then by_domain (narrow domain) else by_ipAddress (narrow ip))
  | moderate_content content => Experimental_getContentModeration content
  | get_form_responses formId => Forms_getResponses formId
  end.

(** The text a handler makes of what its call resolved to. *)
Definition rendering (i : Invocation) : resolves_to (delegated i) -> option string :=
  match i return resolves_to (delegated i) -> option string with
  | send_email _ _ _ _ _ _ =>
      fun result => Some (if number_gt result (Finite 0)
                          then "Email sent successfully"
                          else "Failed to send email")
  | batch_import_subscribers _ =>
      fun count => Some ("Successfully imported " ++ Number_toString count ++ " subscribers")
  | validate_email _ _ _ _ =>
      fun isValid => Some (if (isValid : bool)
                           then "Email is valid"
                           else "Email appears to be invalid or risky")
  | _ => formatResponse
  end.

(** Every handler, read as one adapter: the check on the arguments,
    the credentials, one delegated call, its rendering, and the
    [catch] clause around the last three. *)
Definition adapter (w : World) (i : Invocation) : Completion Mcp.ToolResult * list Call :=
  match argument_check i with
  | Some guidance => (Normal (reply (Some guidance)), [])
  | None =>
      if credentials_missing w then
        (Normal (reply (Some (handleError (ErrorObject missing_variables)))), [])
      else
        match remote w (client_of w) (delegated i) with
        | Normal x => (Normal (reply (rendering i x)), [delegated i])
        | Throw e => (Normal (reply (Some (handleError e))), [delegated i])
        end
  end.

(** [s] occurs in [t]. *)
Fixpoint includes (t s : string) : bool :=
  match t with
  | EmptyString => is_empty s
  | String _ rest => String.prefix s t || includes rest s
  end.

(** [process.env.NAME] is [undefined]. *)
Definition unset (w : World) (name : string) : Prop := process_env w name = None.

(** *** Sample worlds *)

Definition env_of (publishable secret site : option string) : string -> option string :=
  fun name =>
    if String.eqb name "BENTO_PUBLISHABLE_KEY" then publishable
    else if String.eqb name "BENTO_SECRET_KEY" then secret
    else if String.eqb name "BENTO_SITE_UUID" then site
    else None.

(** A remote service that accepts everything. *)
Definition accepting : Remote :=
  fun _ c =>
    match c return Completion (resolves_to c) with
    | Batch_sendTransactionalEmails emails => Normal (Finite (Z.of_nat (length emails)))
    | Batch_importSubscribers subscribers => Normal (Finite (Z.of_nat (length subscribers)))
    | Experimental_validateEmail _ _ _ _ => Normal true
    | _ => Normal VNull
    end.

(** A remote service that rejects every call with [new Error(message)]. *)
Definition rejecting (message : string) : Remote :=
  fun _ c => Throw (ErrorObject message).

(** A remote service whose send operation reports [count] emails. *)
Definition sending (count : Z) : Remote :=
  fun bento c =>
    match c return Completion (resolves_to c) with
    | Batch_sendTransactionalEmails _ => Normal (Finite count)
    | c' => accepting bento c'
    end.

Definition configured_env : string -> option string :=
  env_of (Some "pk_live") (Some "sk_live") (Some "site-1").

Definition configured_bento : Analytics :=
  {| publishableKey := "pk_live"; secretKey := "sk_live"; siteUuid := "site-1" |}.

Definition configured (r : Remote) : World :=
  {| process_env := configured_env; remote := r |}.

(** No variable set at all. *)
Definition bare : World :=
  {| process_env := env_of None None None; remote := accepting |}.

(** Only the secret key is missing. *)
Definition without_secret : World :=
  {| process_env := env_of (Some "pk_live") None (Some "site-1"); remote := accepting |}.

(** The properties of an object whose second value is [undefined]. *)
Definition sample_object : object :=
  [("id", VNumber (Finite 7)); ("note", VUndefined); ("tags", VArray [VString "lead"])].

(** A subscriber with a first name and a field of its own. *)
Definition sample_subscriber : object :=
  [("email", VString "ada@example.com"); ("firstName", VString "Ada");
   ("plan", VString "pro")].

(* ===================================================================== *)
(** ** The format constraint of the schemas *)
(* ===================================================================== *)

(** An optional string of a batch subscriber: left out, or a string. *)
Definition optional_string (v : value) : bool :=
  match v with
  | VUndefined | VString _ => true
  | _ => false
  end.

(** [z.object({ email: z.string().email(), firstName, lastName, tags:
    z.string().optional() }).passthrough()]. *)
Definition subscriber_accepted (is_email : string -> bool) (s : object) : bool :=
  match get s "email" with
  | VString email => is_email email
  | _ => false
  end
  && optional_string (get s "firstName")
  && optional_string (get s "lastName")
  && optional_string (get s "tags").

(** Whether the schema of the tool accepts the arguments, given the
    test [is_email] that [z.string().email()] applies.  The test is the
    validation library's, not code of [src/index.ts]; the properties
    below need one fact about it, that it refuses the empty string. *)
Definition schema_accepts (is_email : string -> bool) (i : Invocation) : bool :=
  match i with
  | get_subscriber email _ =>
      match email with
      | Some e => is_email e
      | None => true
      end
  | create_subscriber email => is_email email
  | upsert_subscriber email _ _ _ => is_email email
  | add_subscriber email _ => is_email email
  | remove_subscriber email => is_email email
  | tag_subscriber email _ => is_email email
  | remove_tag email _ => is_email email
  | track_event email _ _ _ => is_email email
  | track_purchase email _ _ _ _ => is_email email
  | update_fields email _ => is_email email
  | send_email to from _ _ _ _ => is_email to && is_email from
  | create_broadcast _ _ _ _ _ fromEmail _ _ _ _ => is_email fromEmail
  | batch_import_subscribers subscribers =>
      forallb (subscriber_accepted is_email) subscribers
  | validate_email email _ _ _ => is_email email
  | _ => true
  end.

(** A stand-in for the email test in sample runs: an [@] with
    something on both sides. *)
Definition sample_is_email (s : string) : bool :=
  match index 0 "@" s with
  | Some n => Nat.ltb 0 n && Nat.ltb (S n) (String.length s)
  | None => false
  end.

(* ===================================================================== *)
(** ** Starting the server (lines 1048-1057) *)
(* ===================================================================== *)

Module Startup.

(** An argument of [console.error]. *)
Inductive Printed : Type :=
| Text (s : string)
| Fault (e : thrown).

(** What the process shows of itself: the calls of [console.error], in
    order, and the status [process.exit] was given, if it was called. *)
Record Process : Type := {
  stderr : list (list Printed);
  exit_code : option Z
}.

Definition fresh : Process := {| stderr := []; exit_code := None |}.

Definition console_error (args : list Printed) (p : Process) : Process :=
  {| stderr := (stderr p ++ [args])%list; exit_code := exit_code p |}.

Definition process_exit (code : Z) (p : Process) : Process :=
  {| stderr := stderr p; exit_code := Some code |}.

(** [main]: [connect] is how building the transport and
    [await server.connect(transport)] settle. *)
Definition main (connect : Completion unit) (p : Process) : Completion unit * Process :=
  match connect with
  | Normal _ => (Normal tt, console_error [Text "Bento MCP Server running on stdio"] p)
  | Throw e => (Throw e, p)
  end.

(** [main().catch((error) => { console.error("Fatal error:", error);
    process.exit(1); })]. *)
Definition start (connect : Completion unit) (p : Process) : Process :=
  match main connect p with
  | (Normal _, p') => p'
  | (Throw error, p') =>
      process_exit 1 (console_error [Text "Fatal error:"; Fault error] p')
  end.

End Startup.

(* ===================================================================== *)
(** ** Reading a quoted string back *)
(* ===================================================================== *)

Definition unhex (c : ascii) : nat :=
  let n := nat_of_ascii c in
  if Nat.leb 97 n then n - 87 else n - 48.

(** The character a two-character escape stands for. *)
Definition unescape (c : ascii) : ascii :=
  let n := nat_of_ascii c in
  if Nat.eqb n 98 then "008"
  else if Nat.eqb n 116 then "009"
  else if Nat.eqb n 110 then "010"
  else if Nat.eqb n 102 then "012"
  else if Nat.eqb n 114 then "013"
  else c.

(** The inverse of [quote_chars]: what a reader of the JSON text makes
    of the inside of a string literal. *)
Fixpoint unquote_chars (s : string) : string :=
  match s with
  | EmptyString => EmptyString
  | String c rest =>
      if Nat.eqb (nat_of_ascii c) 92 then
        match rest with
        | EmptyString => EmptyString
        | String e rest' =>
            if Nat.eqb (nat_of_ascii e) 117 then
              match rest' with
              | String _ (String _ (String h (String l rest''))) =>
                  String (ascii_of_nat (16 * unhex h + unhex l)) (unquote_chars rest'')
              | _ => EmptyString
              end
            else String (unescape e) (unquote_chars rest')
        end
      else String c (unquote_chars rest)
  end.

(** The configured environment with one more variable in it. *)
Definition noisy_env : string -> option string :=
  fun name => if String.eqb name "HOME" then Some "/root" else configured_env name.

(** A subscriber that already carries a [first_name]. *)
Definition snake_subscriber : object :=
  [("email", VString "ada@example.com"); ("first_name", VString "Ada")].

(* ===================================================================== *)
(** ** Properties *)
(* ===================================================================== *)

(** *** Sample runs *)

(** The lookup of [john@example.com]: one read keyed by the email, and
    the subscriber serialized. *)
Example lookup_by_email :
  invoke
    {| process_env := configured_env;
       remote := fun _ c =>
         match c return Completion (resolves_to c) with
         | Subscribers_getSubscribers (by_email "john@example.com") =>
             Normal (VObject [("id", VString "444"); ("type", VString "visitors")])
         | c' => rejecting "not found" configured_bento c'
         end |}
    (get_subscriber (Some "john@example.com") None)
  = (Normal (reply (Some ("{" ++ LF
                            ++ "  " ++ DQUOTE ++ "id" ++ DQUOTE ++ ": "
                            ++ DQUOTE ++ "444" ++ DQUOTE ++ "," ++ LF
                            ++ "  " ++ DQUOTE ++ "type" ++ DQUOTE ++ ": "
                            ++ DQUOTE ++ "visitors" ++ DQUOTE ++ LF
                            ++ "}"))),
     [Subscribers_getSubscribers (by_email "john@example.com")]).
Proof. reflexivity. Qed.

Example stringify_nested :
  JSON_stringify
    (VObject [("a", VNumber (Finite 1));
              ("b", VArray [VString "x"; VUndefined; VObject []]);
              ("c", VUndefined);
              ("d", VNumber NaN)]) 2
  = Some ("{" ++ LF
            ++ "  " ++ DQUOTE ++ "a" ++ DQUOTE ++ ": 1," ++ LF
            ++ "  " ++ DQUOTE ++ "b" ++ DQUOTE ++ ": [" ++ LF
            ++ "    " ++ DQUOTE ++ "x" ++ DQUOTE ++ "," ++ LF
            ++ "    null," ++ LF
            ++ "    {}" ++ LF
            ++ "  ]," ++ LF
            ++ "  " ++ DQUOTE ++ "d" ++ DQUOTE ++ ": null" ++ LF
            ++ "}").
Proof. reflexivity. Qed.

Example stringify_compact :
  JSON_stringify (VObject [("a", VArray [VBool true; VNull])]) 0
  = Some ("{" ++ DQUOTE ++ "a" ++ DQUOTE ++ ":[true,null]}").
Proof. reflexivity. Qed.

Example quote_control_characters :
  QuoteJSONString (String "009"%char (String "001"%char (String "034"%char "z")))
  = DQUOTE ++ BACKSLASH ++ "t" ++ BACKSLASH ++ "u0001" ++ BACKSLASH ++ DQUOTE
      ++ "z" ++ DQUOTE.
Proof. reflexivity. Qed.

Example string_of_array :
  String_ (VArray [VNumber (Finite 1); VNull; VArray [VString "x"; VString "y"]])
  = "1,,x,y".
Proof. reflexivity. Qed.

Example handleError_of_a_thrown_string :
  handleError (Thrown (VString "timeout")) = "Error: timeout".
Proof. reflexivity. Qed.

Example import_reshapes_names :
  Handlers.imported_subscriber sample_subscriber
  = [("email", VString "ada@example.com"); ("plan", VString "pro");
     ("first_name", VString "Ada"); ("last_name", VUndefined)].
Proof. reflexivity. Qed.

Section Running.

Variable w : World.

Lemma getBentoClient_run (log : list Call) :
  getBentoClient w log =
  (if credentials_missing w
   then Throw (ErrorObject missing_variables)
   else Normal (client_of w), log).
Proof.
  unfold getBentoClient, credentials_missing, client_of, bind, getenv, throw, ret.
  destruct (falsy (process_env w "BENTO_PUBLISHABLE_KEY")
            || falsy (process_env w "BENTO_SECRET_KEY")
            || falsy (process_env w "BENTO_SITE_UUID")); reflexivity.
Qed.

(** The shape shared by the handlers: credentials, one call, a text. *)
Lemma delegate_run (c : Call) (f : resolves_to c -> option string) :
  run (try_catch
         (bento <- getBentoClient ;;
          x <- await bento c ;;
          ret (reply (f x)))
         caught) w =
  if credentials_missing w then
    (Normal (reply (Some (handleError (ErrorObject missing_variables)))), [])
  else
    match remote w (client_of w) c with
    | Normal x => (Normal (reply (f x)), [c])
    | Throw e => (Normal (reply (Some (handleError e))), [c])
    end.
Proof.
  unfold run, try_catch, bind. rewrite getBentoClient_run.
  destruct (credentials_missing w); [reflexivity|].
  unfold await, ret, caught. simpl.
  destruct (remote w (client_of w) c); reflexivity.
Qed.

(** The same, behind a test on the arguments. *)
Lemma guarded_run (test : bool) (guidance : string) (c : Call)
    (f : resolves_to c -> option string) :
  run (try_catch
         (if test then ret (reply (Some guidance))
          else
            bento <- getBentoClient ;;
            x <- await bento c ;;
            ret (reply (f x)))
         caught) w =
  if test then (Normal (reply (Some guidance)), [])
  else if credentials_missing w then
    (Normal (reply (Some (handleError (ErrorObject missing_variables)))), [])
  else
    match remote w (client_of w) c with
    | Normal x => (Normal (reply (f x)), [c])
    | Throw e => (Normal (reply (Some (handleError e))), [c])
    end.
Proof.
  destruct test; [reflexivity|]. apply delegate_run.
Qed.

(** The handlers are the adapter. *)
Lemma invoke_adapter (i : Invocation) : invoke w i = adapter w i.
Proof.
  unfold invoke, adapter.
  destruct i; simpl server_tool; simpl argument_check;
    try exact (delegate_run _ _).
  all: unfold Handlers.bento_get_subscriber, Handlers.bento_update_email_template,
         Handlers.bento_batch_import_subscribers, Handlers.bento_check_blacklist;
       rewrite guarded_run;
       match goal with |- (if ?test then _ else _) = _ => destruct test end;
       reflexivity.
Qed.

End Running.

(** *** [formatResponse] *)

Lemma formatResponse_total (data : value) : exists text, formatResponse data = Some text.
Proof.
  destruct data; unfold formatResponse, JSON_stringify; simpl; eauto.
Qed.

Lemma append_empty (s : string) : s ++ EmptyString = s.
Proof.
  induction s as [|c s IH]; simpl; [reflexivity | now rewrite IH].
Qed.

Lemma append_assoc (a b c : string) : (a ++ b) ++ c = a ++ b ++ c.
Proof.
  induction a as [|x a IH]; simpl; [reflexivity | now rewrite IH].
Qed.

(** A part of a joined list stands in the text, between what was
    joined before it and what is joined after it. *)
Lemma join_around (sep : string) (before after : list string) (m : string) :
  exists pre post, join sep (before ++ m :: after)%list = pre ++ m ++ post.
Proof.
  induction before as [|b before IH]; simpl.
  - exists EmptyString. destruct after as [|a after].
    + exists EmptyString. simpl. now rewrite append_empty.
    + exists (sep ++ join sep (a :: after)). reflexivity.
  - destruct IH as (pre & post & IH).
    destruct (before ++ m :: after)%list eqn:E.
    + destruct before; discriminate E.
    + rewrite IH. exists (b ++ sep ++ pre), post.
      now rewrite !append_assoc.
Qed.

Lemma join_around_two (sep : string) (before between after : list string)
    (m1 m2 : string) :
  exists pre mid post,
    join sep (before ++ m1 :: between ++ m2 :: after)%list
    = pre ++ m1 ++ mid ++ m2 ++ post.
Proof.
  induction before as [|b before IH]; simpl.
  - destruct (join_around sep between after m2) as (pre & post & E).
    exists EmptyString, (sep ++ pre), post. simpl.
    destruct (between ++ m2 :: after)%list eqn:F.
    + destruct between; discriminate F.
    + rewrite E. now rewrite !append_assoc.
  - destruct IH as (pre & mid & post & IH).
    destruct (before ++ m1 :: between ++ m2 :: after)%list eqn:F.
    + destruct before; discriminate F.
    + rewrite IH. exists (b ++ sep ++ pre), mid, post.
      now rewrite !append_assoc.
Qed.

(** The properties of an object are serialized in their order: of two
    properties that have a JSON form, the member of the earlier one
    stands before the member of the later one. *)
Lemma stringify_keeps_property_order
    (before between after : object) (k1 k2 : string) (v1 v2 : value) (s1 s2 : string) :
  SerializeJSONProperty "  " "  " v1 = Some s1 ->
  SerializeJSONProperty "  " "  " v2 = Some s2 ->
  exists pre mid post,
    JSON_stringify (VObject (before ++ (k1, v1) :: between ++ (k2, v2) :: after)%list) 2
    = Some (pre ++ (QuoteJSONString k1 ++ ": " ++ s1)
                ++ mid ++ (QuoteJSONString k2 ++ ": " ++ s2) ++ post).
Proof.
  intros H1 H2. unfold JSON_stringify.
  change (gap_of_space 2) with "  ".
  cbn [SerializeJSONProperty].
  change (EmptyString ++ "  ") with "  ".
  rewrite flat_map_app. cbn [flat_map snd fst]. rewrite H1.
  rewrite flat_map_app. cbn [flat_map snd fst]. rewrite H2.
  cbn [app].
  set (f := fun p : string * value =>
              match SerializeJSONProperty "  " "  " (snd p) with
              | Some str => [member "  " (fst p) str]
              | None => []
              end).
  destruct (join_around_two ("," ++ LF ++ "  ") (flat_map f before)
              (flat_map f between) (flat_map f after)
              (member "  " k1 s1) (member "  " k2 s2)) as (pre & mid & post & E).
  unfold bracketed.
  destruct (flat_map f before ++ member "  " k1 s1
              :: flat_map f between ++ member "  " k2 s2 :: flat_map f after)%list eqn:F.
  - destruct (flat_map f before); discriminate F.
  - simpl is_empty. cbv iota. rewrite E.
    exists ("{" ++ LF ++ "  " ++ pre), mid, (post ++ LF ++ "}").
    unfold member. simpl is_empty. cbv iota.
    rewrite !append_assoc. reflexivity.
Qed.

(** C3 (as amended).  [formatResponse] is a total function of its
    input: every input gets a text.  [null] and [undefined] get the one
    literal [No data returned]; [true] and [false] get [Success] and
    [Operation failed]; a number gets [Count: ] followed by the number;
    a string, an array or an object gets its [JSON.stringify] text with
    a two-space indentation, in which the properties of an object stand
    in their order.  An empty string, array or object is serialized
    like any other. *)
Theorem formatResponse_rules :
  (forall data, exists text, formatResponse data = Some text)
  /\ formatResponse VNull = Some "No data returned"
  /\ formatResponse VUndefined = Some "No data returned"
  /\ (forall b, formatResponse (VBool b)
                = Some (if b then "Success" else "Operation failed"))
  /\ (forall n, formatResponse (VNumber n) = Some ("Count: " ++ Number_toString n))
  /\ (forall data, typeof data = "string" \/ (typeof data = "object" /\ data <> VNull) ->
        formatResponse data = JSON_stringify data 2)
  /\ (forall before between after k1 k2 v1 v2 s1 s2,
        SerializeJSONProperty "  " "  " v1 = Some s1 ->
        SerializeJSONProperty "  " "  " v2 = Some s2 ->
        exists pre mid post,
          formatResponse (VObject (before ++ (k1, v1) :: between ++ (k2, v2) :: after)%list)
          = Some (pre ++ (QuoteJSONString k1 ++ ": " ++ s1)
                      ++ mid ++ (QuoteJSONString k2 ++ ": " ++ s2) ++ post))
  /\ formatResponse (VString EmptyString) = Some (DQUOTE ++ DQUOTE)
  /\ formatResponse (VArray []) = Some "[]"
  /\ formatResponse (VObject []) = Some "{}".
Proof.
  split; [exact formatResponse_total|].
  repeat split; try reflexivity.
  - intros data [H | [H N]]; destruct data; try discriminate H; try reflexivity.
    now elim N.
  - intros. now apply stringify_keeps_property_order.
Qed.

Lemma formatResponse_rules_witness :
  exists pre mid post,
    formatResponse (VObject sample_object)
    = Some (pre ++ (QuoteJSONString "id" ++ ": " ++ "7")
                ++ mid
                ++ (QuoteJSONString "tags" ++ ": "
                      ++ "[" ++ LF ++ "    " ++ QuoteJSONString "lead" ++ LF ++ "  ]")
                ++ post).
Proof.
  exact (proj1 (proj2 (proj2 (proj2 (proj2 (proj2 (proj2 formatResponse_rules))))))
           [] [("note", VUndefined)] [] "id" "tags"
           (VNumber (Finite 7)) (VArray [VString "lead"]) _ _
           eq_refl eq_refl).
Defined.

(** C3, the sentence on empty results: an empty array is a result, and
    it is not rendered as [No data returned]. *)
Lemma formatResponse_empty_counterexample :
  formatResponse (VArray []) = Some "[]"
  /\ formatResponse (VArray []) <> Some "No data returned".
Proof.
  split; [reflexivity | discriminate].
Qed.

(** *** Credentials *)

Lemma unset_missing (w : World) :
  unset w "BENTO_PUBLISHABLE_KEY" \/ unset w "BENTO_SECRET_KEY"
  \/ unset w "BENTO_SITE_UUID" ->
  credentials_missing w = true.
Proof.
  unfold unset, credentials_missing.
  intros [H | [H | H]]; rewrite H; simpl;
    repeat rewrite orb_true_r; reflexivity.
Qed.

(** C10.  Whichever of the three variables is unset, be it one, two or
    all three, [getBentoClient] throws an [Error] with one and the same
    message, and the message names all three variables. *)
Theorem missing_variables_message (w : World) :
  unset w "BENTO_PUBLISHABLE_KEY" \/ unset w "BENTO_SECRET_KEY"
  \/ unset w "BENTO_SITE_UUID" ->
  run getBentoClient w
  = (Throw (ErrorObject
       "Missing required environment variables: BENTO_PUBLISHABLE_KEY, BENTO_SECRET_KEY, BENTO_SITE_UUID"),
     [])
  /\ includes missing_variables "BENTO_PUBLISHABLE_KEY" = true
  /\ includes missing_variables "BENTO_SECRET_KEY" = true
  /\ includes missing_variables "BENTO_SITE_UUID" = true.
Proof.
  intros H. unfold run. rewrite getBentoClient_run, (unset_missing w H).
  repeat split.
Qed.

Lemma missing_variables_message_witness :
  run getBentoClient without_secret
  = (Throw (ErrorObject
       "Missing required environment variables: BENTO_PUBLISHABLE_KEY, BENTO_SECRET_KEY, BENTO_SITE_UUID"),
     [])
  /\ includes missing_variables "BENTO_PUBLISHABLE_KEY" = true
  /\ includes missing_variables "BENTO_SECRET_KEY" = true
  /\ includes missing_variables "BENTO_SITE_UUID" = true.
Proof.
  apply (missing_variables_message without_secret).
  right; left. reflexivity.
Defined.

(** C2 (as amended).  When one of the three variables is unset, no
    invocation delegates a call.  An invocation whose arguments pass the
    handler's own check answers the missing-variables text, which names
    the three variables; one whose arguments fail that check answers the
    guidance of the check, as it does with the variables set. *)
Theorem missing_credentials_no_call (w : World) (i : Invocation) :
  unset w "BENTO_PUBLISHABLE_KEY" \/ unset w "BENTO_SECRET_KEY"
  \/ unset w "BENTO_SITE_UUID" ->
  snd (invoke w i) = []
  /\ (argument_check i = None ->
      fst (invoke w i) = Normal (reply (Some ("Error: " ++ missing_variables))))
  /\ (forall guidance, argument_check i = Some guidance ->
      fst (invoke w i) = Normal (reply (Some guidance)))
  /\ (forall name,
        In name ["BENTO_PUBLISHABLE_KEY"; "BENTO_SECRET_KEY"; "BENTO_SITE_UUID"] ->
        includes ("Error: " ++ missing_variables) name = true).
Proof.
  intros H. rewrite invoke_adapter. unfold adapter.
  rewrite (unset_missing w H).
  destruct (argument_check i) as [guidance|]; simpl.
  - repeat split; try discriminate.
    + intros g E. now inversion E.
    + intros name [E | [E | [E | []]]]; subst name; reflexivity.
  - repeat split; try discriminate.
    intros name [E | [E | [E | []]]]; subst name; reflexivity.
Qed.

Lemma missing_credentials_no_call_witness :
  snd (invoke bare list_tags) = []
  /\ fst (invoke bare list_tags)
     = Normal (reply (Some
         "Error: Missing required environment variables: BENTO_PUBLISHABLE_KEY, BENTO_SECRET_KEY, BENTO_SITE_UUID")).
Proof.
  destruct (missing_credentials_no_call bare list_tags (or_introl eq_refl))
    as (L & T & _).
  split; [exact L | exact (T eq_refl)].
Defined.

(** C2, as stated: with no variable set, the subscriber lookup called
    without an identifier answers its guidance, a text that names no
    variable. *)
Lemma missing_credentials_counterexample :
  unset bare "BENTO_PUBLISHABLE_KEY"
  /\ unset bare "BENTO_SECRET_KEY"
  /\ unset bare "BENTO_SITE_UUID"
  /\ invoke bare (get_subscriber None None)
     = (Normal (reply (Some "Either email or uuid is required")), [])
  /\ includes "Either email or uuid is required" "BENTO_PUBLISHABLE_KEY" = false
  /\ includes "Either email or uuid is required" "BENTO_SECRET_KEY" = false
  /\ includes "Either email or uuid is required" "BENTO_SITE_UUID" = false.
Proof.
  repeat split.
Qed.

(** *** The tool boundary *)

Lemma rendering_total (i : Invocation) (x : resolves_to (delegated i)) :
  exists text, rendering i x = Some text.
Proof.
  destruct i; simpl in *; eauto using formatResponse_total.
Qed.

(** C1.  No fault leaves a handler: every invocation returns one text
    item.  A fault thrown while the credentials are resolved, or by the
    delegated call, is turned into the text [Error: ] followed by the
    message of the fault when it is an [Error], by its string conversion
    otherwise. *)
Theorem faults_caught_at_tool_boundary (w : World) (i : Invocation) :
  (exists text,
     fst (invoke w i)
     = Normal {| Mcp.content := [ {| Mcp.type := "text"; Mcp.text := Some text |} ] |})
  /\ (forall e,
        argument_check i = None ->
        fst (run getBentoClient w) = Throw e ->
        fst (invoke w i)
        = Normal (reply (Some ("Error: " ++ match e with
                                            | ErrorObject message => message
                                            | Thrown v => String_ v
                                            end))))
  /\ (forall bento c e,
        fst (run getBentoClient w) = Normal bento ->
        In c (snd (invoke w i)) ->
        remote w bento c = Throw e ->
        fst (invoke w i)
        = Normal (reply (Some ("Error: " ++ match e with
                                            | ErrorObject message => message
                                            | Thrown v => String_ v
                                            end)))).
Proof.
  rewrite invoke_adapter. unfold adapter, run. rewrite getBentoClient_run.
  destruct (argument_check i) as [guidance|].
  - simpl. split; [eexists; reflexivity|].
    split; [discriminate|]. intros bento c e _ [].
  - destruct (credentials_missing w); simpl.
    + split; [eexists; reflexivity|]. split.
      * intros e _ E. inversion E. reflexivity.
      * intros bento c e _ [].
    + destruct (remote w (client_of w) (delegated i)) as [x|e0] eqn:R; simpl.
      * split.
        { destruct (rendering_total i x) as [text E]. rewrite E.
          eexists; reflexivity. }
        split; [discriminate|].
        intros bento c e B [C | []] T. inversion B. subst bento c.
        rewrite R in T. discriminate T.
      * split; [eexists; reflexivity|]. split; [discriminate|].
        intros bento c e B [C | []] T. inversion B. subst bento c.
        rewrite R in T. inversion T. destruct e; reflexivity.
Qed.

Lemma faults_caught_at_tool_boundary_witness :
  fst (invoke (configured (rejecting "quota exceeded")) list_tags)
  = Normal (reply (Some "Error: quota exceeded")).
Proof.
  exact (proj2 (proj2 (faults_caught_at_tool_boundary
                         (configured (rejecting "quota exceeded")) list_tags))
           (client_of (configured (rejecting "quota exceeded")))
           Tags_getTags (ErrorObject "quota exceeded")
           eq_refl (or_introl eq_refl) eq_refl).
Defined.

(** *** Checks on the arguments *)

Lemma non_empty_truthy (s : string) : s <> EmptyString -> falsy (Some s) = false.
Proof.
  intros H. simpl. now apply String.eqb_neq.
Qed.

(** C5.  Called with neither identifier, the subscriber lookup and the
    blacklist check answer their guidance and delegate no call, whatever
    the environment holds: the test comes before the credentials are
    read. *)
Theorem neither_identifier_guidance (w : World) :
  invoke w (get_subscriber None None)
  = (Normal (reply (Some "Either email or uuid is required")), [])
  /\ invoke w (check_blacklist None None)
     = (Normal (reply (Some "Either domain or ip is required")), []).
Proof.
  rewrite !invoke_adapter. split; reflexivity.
Qed.

(** An email the schema lets through is not the empty string. *)
Lemma accepted_email_not_empty (is_email : string -> bool) (email : string)
    (uuid : option string) :
  is_email EmptyString = false ->
  schema_accepts is_email (get_subscriber (Some email) uuid) = true ->
  email <> EmptyString.
Proof.
  intros E A ->. simpl in A. rewrite E in A. discriminate A.
Qed.

(** C9 (as amended).  With both identifiers given and the first one not
    empty, the call is keyed by the first one alone: by the email for
    the subscriber lookup, by the domain for the blacklist check.  The
    schema of the lookup refuses an empty email, so a lookup it accepts
    with both identifiers is keyed by the email.  The schema of the
    blacklist check accepts an empty domain: with an empty domain and
    an ip that is not empty, the check is keyed by the ip. *)
Theorem first_identifier_takes_precedence (is_email : string -> bool) (w : World)
    (first second : string) :
  credentials_missing w = false ->
  (first <> EmptyString ->
   snd (invoke w (get_subscriber (Some first) (Some second)))
   = [Subscribers_getSubscribers (by_email first)]
   /\ snd (invoke w (check_blacklist (Some first) (Some second)))
      = [Experimental_getBlacklistStatus (by_domain first)])
  /\ (is_email EmptyString = false ->
      schema_accepts is_email (get_subscriber (Some first) (Some second)) = true ->
      snd (invoke w (get_subscriber (Some first) (Some second)))
      = [Subscribers_getSubscribers (by_email first)])
  /\ (second <> EmptyString ->
      schema_accepts is_email (check_blacklist (Some EmptyString) (Some second)) = true
      /\ snd (invoke w (check_blacklist (Some EmptyString) (Some second)))
         = [Experimental_getBlacklistStatus (by_ipAddress second)]).
Proof.
  intros C.
  assert (K : first <> EmptyString ->
              snd (invoke w (get_subscriber (Some first) (Some second)))
              = [Subscribers_getSubscribers (by_email first)]
              /\ snd (invoke w (check_blacklist (Some first) (Some second)))
                 = [Experimental_getBlacklistStatus (by_domain first)]).
  { intros F. rewrite !invoke_adapter.
    unfold adapter, argument_check, delegated, truthy.
    rewrite (non_empty_truthy first F), C. simpl. split.
    - now destruct (remote w (client_of w) (Subscribers_getSubscribers (by_email first))).
    - now destruct (remote w (client_of w)
                      (Experimental_getBlacklistStatus (by_domain first))). }
  split; [exact K|]. split.
  - intros E A. apply K. exact (accepted_email_not_empty is_email first _ E A).
  - intros S. split; [reflexivity|].
    rewrite invoke_adapter. unfold adapter, argument_check, delegated, truthy.
    rewrite (non_empty_truthy second S), C. simpl.
    now destruct (remote w (client_of w)
                    (Experimental_getBlacklistStatus (by_ipAddress second))).
Qed.

Lemma first_identifier_takes_precedence_witness :
  (snd (invoke (configured accepting)
          (get_subscriber (Some "john@example.com") (Some "a1b2")))
   = [Subscribers_getSubscribers (by_email "john@example.com")]
   /\ snd (invoke (configured accepting)
             (check_blacklist (Some "john@example.com") (Some "a1b2")))
      = [Experimental_getBlacklistStatus (by_domain "john@example.com")])
  /\ snd (invoke (configured accepting)
            (get_subscriber (Some "john@example.com") (Some "a1b2")))
     = [Subscribers_getSubscribers (by_email "john@example.com")]
  /\ snd (invoke (configured accepting)
            (check_blacklist (Some EmptyString) (Some "a1b2")))
     = [Experimental_getBlacklistStatus (by_ipAddress "a1b2")].
Proof.
  destruct (first_identifier_takes_precedence sample_is_email (configured accepting)
              "john@example.com" "a1b2" eq_refl) as (K & L & B).
  split; [apply K; discriminate|].
  split; [apply L; reflexivity|].
  apply B. discriminate.
Defined.

(** C9, as stated: a blacklist check given an empty domain and an ip
    is keyed by the ip. *)
Lemma first_identifier_counterexample :
  snd (invoke (configured accepting)
         (check_blacklist (Some EmptyString) (Some "203.0.113.7")))
  = [Experimental_getBlacklistStatus (by_ipAddress "203.0.113.7")]
  /\ snd (invoke (configured accepting)
            (check_blacklist (Some EmptyString) (Some "203.0.113.7")))
     <> [Experimental_getBlacklistStatus (by_domain EmptyString)].
Proof.
  split; [reflexivity | discriminate].
Qed.

(** C6 (as amended).  The template update called with neither a subject
    nor an html, or with empty strings for them, answers its guidance
    and delegates no call.  With a subject or an html that is not
    empty, and the credentials set, it delegates the update with the
    id, the subject and the html it was given. *)
Theorem update_template_needs_content (w : World) (id : number)
    (subject html : option string) :
  invoke w (update_email_template id None None)
  = (Normal (reply (Some "Either subject or html (or both) is required to update")), [])
  /\ (falsy subject = true -> falsy html = true ->
      invoke w (update_email_template id subject html)
      = (Normal (reply (Some "Either subject or html (or both) is required to update")),
         []))
  /\ ((exists s, subject = Some s /\ s <> EmptyString)
      \/ (exists h, html = Some h /\ h <> EmptyString) ->
      credentials_missing w = false ->
      snd (invoke w (update_email_template id subject html))
      = [EmailTemplates_updateEmailTemplate id subject html]).
Proof.
  rewrite !invoke_adapter. unfold adapter, argument_check, delegated.
  split; [reflexivity|]. split.
  - intros S H. rewrite S, H. reflexivity.
  - intros G C. rewrite C.
    assert (T : falsy subject && falsy html = false).
    { destruct G as [(s & E & N) | (h & E & N)]; subst;
        rewrite (non_empty_truthy _ N); auto using andb_false_r. }
    rewrite T.
    now destruct (remote w (client_of w)
                    (EmailTemplates_updateEmailTemplate id subject html)).
Qed.

Lemma update_template_needs_content_witness :
  invoke (configured accepting) (update_email_template (Finite 42) None (Some EmptyString))
  = (Normal (reply (Some "Either subject or html (or both) is required to update")), [])
  /\ snd (invoke (configured accepting)
            (update_email_template (Finite 42) (Some "Welcome") None))
     = [EmailTemplates_updateEmailTemplate (Finite 42) (Some "Welcome") None].
Proof.
  split.
  - apply (update_template_needs_content (configured accepting) (Finite 42)
             None (Some EmptyString)); reflexivity.
  - apply (update_template_needs_content (configured accepting) (Finite 42)
             (Some "Welcome") None).
    + left. exists "Welcome". split; [reflexivity | discriminate].
    + reflexivity.
Defined.

(** C6, as stated: a subject is supplied, as the empty string, the
    credentials are set, and no update is delegated. *)
Lemma update_template_counterexample :
  invoke (configured accepting)
    (update_email_template (Finite 42) (Some EmptyString) None)
  = (Normal (reply (Some "Either subject or html (or both) is required to update")), [])
  /\ snd (invoke (configured accepting)
            (update_email_template (Finite 42) (Some EmptyString) None))
     <> [EmailTemplates_updateEmailTemplate (Finite 42) (Some EmptyString) None].
Proof.
  split; [reflexivity | discriminate].
Qed.

(** *** The batch import *)

(** C4.  A list of 1001 subscribers is answered with the maximum-batch
    text and no call is delegated.  A list of 1000 passes the test:
    with the credentials set, the bulk import is delegated, with every
    subscriber reshaped, and its count is reported. *)
Theorem batch_import_cap (w : World) (subscribers : list object) :
  (length subscribers = 1001 ->
   invoke w (batch_import_subscribers subscribers)
   = (Normal (reply (Some "Error: Maximum 1000 subscribers per batch")), []))
  /\ (length subscribers = 1000 ->
      credentials_missing w = false ->
      snd (invoke w (batch_import_subscribers subscribers))
      = [Batch_importSubscribers (map Handlers.imported_subscriber subscribers)]
      /\ forall count,
           remote w (client_of w)
             (Batch_importSubscribers (map Handlers.imported_subscriber subscribers))
           = Normal count ->
           fst (invoke w (batch_import_subscribers subscribers))
           = Normal (reply (Some ("Successfully imported " ++ Number_toString count
                                    ++ " subscribers")))).
Proof.
  rewrite invoke_adapter. unfold adapter, argument_check, delegated, rendering.
  split.
  - intros L. rewrite L. reflexivity.
  - intros L C. rewrite L, C. simpl Nat.ltb. cbv iota.
    split.
    + now destruct (remote w (client_of w)
                      (Batch_importSubscribers
                         (map Handlers.imported_subscriber subscribers))).
    + intros count R. rewrite R. reflexivity.
Qed.

Lemma batch_import_cap_witness :
  invoke (configured accepting) (batch_import_subscribers (repeat sample_subscriber 1001))
  = (Normal (reply (Some "Error: Maximum 1000 subscribers per batch")), [])
  /\ snd (invoke (configured accepting)
            (batch_import_subscribers (repeat sample_subscriber 1000)))
     = [Batch_importSubscribers
          (map Handlers.imported_subscriber (repeat sample_subscriber 1000))]
  /\ fst (invoke (configured accepting)
            (batch_import_subscribers (repeat sample_subscriber 1000)))
     = Normal (reply (Some "Successfully imported 1000 subscribers")).
Proof.
  split.
  - apply (proj1 (batch_import_cap (configured accepting)
                    (repeat sample_subscriber 1001))).
    vm_compute. reflexivity.
  - destruct (proj2 (batch_import_cap (configured accepting)
                       (repeat sample_subscriber 1000))) as [L T].
    + vm_compute. reflexivity.
    + reflexivity.
    + split; [exact L|].
      apply (T (Finite 1000)). vm_compute. reflexivity.
Defined.

(** *** Purchases and emails *)

(** C7.  A purchase tracked without a currency is delegated with the
    currency [USD]; the amount goes through as it was given, 9999
    staying 9999, and the order identifier is the unique key. *)
Theorem track_purchase_defaults (w : World) (email orderId : string) (amount : number)
    (cart : option Args.Cart) :
  credentials_missing w = false ->
  exists details,
    snd (invoke w (track_purchase email orderId amount None cart))
    = [trackPurchase email details]
    /\ value_currency details = "USD"
    /\ value_amount details = amount
    /\ unique_key details = orderId.
Proof.
  intros C. rewrite invoke_adapter. unfold adapter, argument_check. rewrite C.
  destruct (remote w (client_of w) (delegated (track_purchase email orderId amount None cart)));
    simpl; eexists; repeat split.
Qed.

Lemma track_purchase_defaults_witness :
  exists details,
    snd (invoke (configured accepting)
           (track_purchase "ada@example.com" "order-12345" (Finite 9999) None None))
    = [trackPurchase "ada@example.com" details]
    /\ value_currency details = "USD"
    /\ value_amount details = Finite 9999
    /\ unique_key details = "order-12345".
Proof.
  apply (track_purchase_defaults (configured accepting)
           "ada@example.com" "order-12345" (Finite 9999) None).
  reflexivity.
Defined.

(** C8 (as amended).  With the credentials set, the email tool
    delegates one send of one email, whose transactional flag is [true]
    when the caller left it out.  When the send resolves to a count,
    the answer is [Email sent successfully] for a count above zero and
    [Failed to send email] otherwise. *)
Theorem send_email_outcome (w : World) (to from subject htmlBody : string)
    (transactional : option bool) (personalizations : option (list (string * string))) :
  credentials_missing w = false ->
  let email :=
    {| Bento.to := to;
       Bento.from := from;
       Bento.subject := subject;
       html_body := htmlBody;
       Bento.transactional := match transactional with
                              | Some flag => flag
                              | None => true
                              end;
       Bento.personalizations := personalizations |} in
  snd (invoke w (send_email to from subject htmlBody transactional personalizations))
  = [Batch_sendTransactionalEmails [email]]
  /\ forall result,
       remote w (client_of w) (Batch_sendTransactionalEmails [email]) = Normal result ->
       fst (invoke w (send_email to from subject htmlBody transactional personalizations))
       = Normal (reply (Some (if number_gt result (Finite 0)
                              then "Email sent successfully"
                              else "Failed to send email"))).
Proof.
  intros C email. rewrite invoke_adapter.
  unfold adapter, argument_check, delegated, rendering. rewrite C.
  fold (zod_default true transactional) in email. fold email.
  split.
  - now destruct (remote w (client_of w) (Batch_sendTransactionalEmails [email])).
  - intros result R. rewrite R. reflexivity.
Qed.

Lemma send_email_outcome_witness :
  snd (invoke (configured (sending 0))
         (send_email "ada@example.com" "team@example.com" "Receipt" "<p>Thanks</p>"
            None None))
  = [Batch_sendTransactionalEmails
       [ {| Bento.to := "ada@example.com";
            Bento.from := "team@example.com";
            Bento.subject := "Receipt";
            html_body := "<p>Thanks</p>";
            Bento.transactional := true;
            Bento.personalizations := None |} ]]
  /\ fst (invoke (configured (sending 0))
            (send_email "ada@example.com" "team@example.com" "Receipt" "<p>Thanks</p>"
               None None))
     = Normal (reply (Some "Failed to send email")).
Proof.
  destruct (send_email_outcome (configured (sending 0))
              "ada@example.com" "team@example.com" "Receipt" "<p>Thanks</p>"
              None None eq_refl) as [L T].
  split; [exact L | exact (T (Finite 0) eq_refl)].
Defined.

(** C8, as stated: two emails reported sent and one email reported sent
    get the same answer, which is not the count text and holds no
    count. *)
Lemma send_email_counterexample :
  fst (invoke (configured (sending 2))
         (send_email "ada@example.com" "team@example.com" "Receipt" "<p>Thanks</p>"
            None None))
  = Normal (reply (Some "Email sent successfully"))
  /\ fst (invoke (configured (sending 1))
            (send_email "ada@example.com" "team@example.com" "Receipt" "<p>Thanks</p>"
               None None))
     = Normal (reply (Some "Email sent successfully"))
  /\ formatResponse (VNumber (Finite 2)) = Some "Count: 2"
  /\ includes "Email sent successfully" "2" = false.
Proof.
  repeat split.
Qed.

(* ===================================================================== *)
(** ** Further properties of the handlers *)
(* ===================================================================== *)

(** *** One call at most *)

(** X1.  An invocation delegates one call at most, and exactly one when
    its arguments pass the handler's check and no credential is
    missing: there is no retry and no second operation. *)
Theorem one_call_at_most (w : World) (i : Invocation) :
  length (snd (invoke w i)) <= 1
  /\ (length (snd (invoke w i)) = 1
      <-> argument_check i = None /\ credentials_missing w = false).
Proof.
  rewrite invoke_adapter. unfold adapter.
  destruct (argument_check i) as [guidance|]; simpl.
  - split; [lia|]. split; [discriminate | intros [H _]; discriminate H].
  - destruct (credentials_missing w); simpl.
    + split; [lia|]. split; [discriminate | intros [_ H]; discriminate H].
    + destruct (remote w (client_of w) (delegated i)); simpl; split; auto; tauto.
Qed.

(** X3.  An invocation reads three variables of the environment and no
    other: two environments that agree on them, over the same remote
    service, give the same answer and the same calls. *)
Theorem only_three_variables_read (w1 w2 : World) (i : Invocation) :
  remote w1 = remote w2 ->
  process_env w1 "BENTO_PUBLISHABLE_KEY" = process_env w2 "BENTO_PUBLISHABLE_KEY" ->
  process_env w1 "BENTO_SECRET_KEY" = process_env w2 "BENTO_SECRET_KEY" ->
  process_env w1 "BENTO_SITE_UUID" = process_env w2 "BENTO_SITE_UUID" ->
  invoke w1 i = invoke w2 i.
Proof.
  intros R P S U. rewrite !invoke_adapter.
  unfold adapter, credentials_missing, client_of. now rewrite R, P, S, U.
Qed.

Lemma only_three_variables_read_witness :
  invoke {| process_env := noisy_env; remote := rejecting "down" |}
    (get_subscriber None (Some "a1b2"))
  = invoke (configured (rejecting "down")) (get_subscriber None (Some "a1b2")).
Proof.
  apply only_three_variables_read; reflexivity.
Defined.

(** X4.  The call an invocation delegates is made of its arguments
    alone: with the credentials set, neither their values nor the
    answers of the remote service change it. *)
Theorem call_made_of_arguments (w1 w2 : World) (i : Invocation) :
  credentials_missing w1 = false ->
  credentials_missing w2 = false ->
  snd (invoke w1 i) = snd (invoke w2 i).
Proof.
  intros C1 C2. rewrite !invoke_adapter. unfold adapter. rewrite C1, C2.
  destruct (argument_check i); [reflexivity|].
  destruct (remote w1 (client_of w1) (delegated i)),
           (remote w2 (client_of w2) (delegated i)); reflexivity.
Qed.

Lemma call_made_of_arguments_witness :
  snd (invoke (configured (rejecting "down")) (create_tag "vip"))
  = snd (invoke {| process_env := env_of (Some "pk_test") (Some "sk_test") (Some "site-2");
                   remote := accepting |}
           (create_tag "vip")).
Proof.
  apply call_made_of_arguments; reflexivity.
Defined.

(** *** [getBentoClient] *)

(** X6.  A variable set to the empty string counts as missing:
    [getBentoClient] throws the missing-variables error, and so an
    invocation that reaches it delegates nothing. *)
Theorem empty_variable_is_missing (w : World) (name : string) (i : Invocation) :
  In name ["BENTO_PUBLISHABLE_KEY"; "BENTO_SECRET_KEY"; "BENTO_SITE_UUID"] ->
  process_env w name = Some EmptyString ->
  run getBentoClient w = (Throw (ErrorObject missing_variables), [])
  /\ snd (invoke w i) = [].
Proof.
  intros N E.
  assert (M : credentials_missing w = true).
  { unfold credentials_missing.
    destruct N as [N | [N | [N | []]]]; subst name; rewrite E; simpl;
      repeat rewrite orb_true_r; reflexivity. }
  split.
  - unfold run. now rewrite getBentoClient_run, M.
  - rewrite invoke_adapter. unfold adapter. rewrite M.
    now destruct (argument_check i).
Qed.

Lemma empty_variable_is_missing_witness :
  run getBentoClient
    {| process_env := env_of (Some "pk_live") (Some "sk_live") (Some EmptyString);
       remote := accepting |}
  = (Throw (ErrorObject missing_variables), [])
  /\ snd (invoke
            {| process_env := env_of (Some "pk_live") (Some "sk_live") (Some EmptyString);
               remote := accepting |}
            list_tags) = [].
Proof.
  apply (empty_variable_is_missing _ "BENTO_SITE_UUID").
  - right; right; left. reflexivity.
  - reflexivity.
Defined.

(** *** Telling a fault from data *)

Lemma bracketed_head (opening closing stepback indent : string) (o : ascii)
    (partial : list string) :
  opening = String o EmptyString ->
  exists tail, bracketed opening closing "  " stepback indent partial = String o tail.
Proof.
  intros ->. unfold bracketed. destruct partial; simpl; eexists; reflexivity.
Qed.

Lemma formatResponse_not_error (data : value) (text : string) :
  formatResponse data = Some text -> String.prefix "Error: " text = false.
Proof.
  destruct data; unfold formatResponse, JSON_stringify;
    change (gap_of_space 2) with "  "; cbn [SerializeJSONProperty];
    intros E; inversion E; clear E; try reflexivity.
  - destruct b; reflexivity.
  - match goal with
    | |- context [bracketed ?o ?c _ ?s ?n ?p] =>
        destruct (bracketed_head o c s n "["%char p eq_refl) as [tail T]
    end.
    rewrite T. reflexivity.
  - match goal with
    | |- context [bracketed ?o ?c _ ?s ?n ?p] =>
        destruct (bracketed_head o c s n "{"%char p eq_refl) as [tail T]
    end.
    rewrite T. reflexivity.
Qed.

(** X7.  The text [handleError] makes of a fault begins with [Error: ],
    and no text [formatResponse] makes of data does: the two never
    coincide, whatever the data and the fault. *)
Theorem fault_text_is_not_data_text :
  (forall e, String.prefix "Error: " (handleError e) = true)
  /\ (forall data text,
        formatResponse data = Some text -> String.prefix "Error: " text = false)
  /\ (forall data e, formatResponse data <> Some (handleError e)).
Proof.
  assert (P : forall e, String.prefix "Error: " (handleError e) = true).
  { intros [m | v]; simpl; now destruct m || destruct (String_ v). }
  split; [exact P|]. split; [exact formatResponse_not_error|].
  intros data e E. apply formatResponse_not_error in E.
  rewrite P in E. discriminate E.
Qed.

Lemma fault_text_is_not_data_text_witness :
  String.prefix "Error: " "[]" = false.
Proof.
  exact (proj1 (proj2 fault_text_is_not_data_text) (VArray []) "[]" eq_refl).
Defined.

Lemma rendering_not_error (i : Invocation) (x : resolves_to (delegated i)) (text : string) :
  rendering i x = Some text -> String.prefix "Error: " text = false.
Proof.
  destruct i; simpl in *; try apply formatResponse_not_error;
    intros E; inversion E; clear E.
  - now destruct (number_gt x (Finite 0)).
  - reflexivity.
  - now destruct x.
Qed.

(** X8.  With the credentials set and a remote service that settles
    every call without a fault, the only answer that begins with
    [Error: ] is the one of a batch import over the cap of 1000. *)
Theorem error_answer_without_fault (w : World) (i : Invocation) (text : string) :
  credentials_missing w = false ->
  (forall bento c, exists x, remote w bento c = Normal x) ->
  fst (invoke w i) = Normal (reply (Some text)) ->
  String.prefix "Error: " text = true ->
  exists subscribers,
    i = batch_import_subscribers subscribers /\ 1000 < length subscribers.
Proof.
  intros C R. rewrite invoke_adapter. unfold adapter. rewrite C.
  destruct (argument_check i) as [guidance|] eqn:A.
  - simpl. intros E P. inversion E; subst guidance; clear E.
    destruct i; simpl in A; try discriminate A;
      match type of A with
      | (if ?test then _ else _) = _ => destruct test eqn:T
      end; inversion A; subst text; try discriminate P.
    eexists. split; [reflexivity|]. now apply Nat.ltb_lt.
  - destruct (R (client_of w) (delegated i)) as [x X]. rewrite X. simpl.
    intros E P. inversion E as [E'].
    destruct (rendering i x) as [t|] eqn:Q; inversion E'; subst t.
    apply rendering_not_error in Q. rewrite Q in P. discriminate P.
Qed.

Lemma error_answer_without_fault_witness :
  exists subscribers,
    batch_import_subscribers (repeat sample_subscriber 1001)
    = batch_import_subscribers subscribers
    /\ 1000 < length subscribers.
Proof.
  apply (error_answer_without_fault (configured accepting)
           (batch_import_subscribers (repeat sample_subscriber 1001))
           "Error: Maximum 1000 subscribers per batch").
  - reflexivity.
  - intros bento c. destruct c; eexists; reflexivity.
  - vm_compute. reflexivity.
  - reflexivity.
Defined.

(** *** What the serialization keeps and what it drops *)

(** X9.  A property whose value is [undefined] leaves no trace in the
    text of an object, and an [undefined] element of an array reads as
    [null]. *)
Theorem undefined_in_the_text (before after : object) (key : string)
    (front back : list value) :
  formatResponse (VObject (before ++ (key, VUndefined) :: after)%list)
  = formatResponse (VObject (before ++ after)%list)
  /\ formatResponse (VArray (front ++ VUndefined :: back)%list)
     = formatResponse (VArray (front ++ VNull :: back)%list).
Proof.
  unfold formatResponse, JSON_stringify. cbn [SerializeJSONProperty]. split.
  - now rewrite !flat_map_app.
  - now rewrite !map_app.
Qed.

Lemma unquote_quote_char (c : ascii) (rest : string) :
  unquote_chars (quote_char c ++ rest) = String c (unquote_chars rest).
Proof.
  destruct c as [[] [] [] [] [] [] [] []]; reflexivity.
Qed.

Lemma unquote_quote_chars (s : string) : unquote_chars (quote_chars s) = s.
Proof.
  induction s as [|c s IH]; [reflexivity|].
  cbn [quote_chars]. now rewrite unquote_quote_char, IH.
Qed.

Lemma append_quote_cancel (a b : string) : a ++ DQUOTE = b ++ DQUOTE -> a = b.
Proof.
  revert b. induction a as [|x a IH]; intros [|y b] E; simpl in E.
  - reflexivity.
  - inversion E as [[X T]]. destruct b; discriminate T.
  - inversion E as [[X T]]. destruct a; discriminate T.
  - inversion E as [[X T]]. f_equal. now apply IH.
Qed.

(** X10.  Quoting loses nothing of a string: two strings that get the
    same text are the same string. *)
Theorem quoting_loses_nothing (s1 s2 : string) :
  formatResponse (VString s1) = formatResponse (VString s2) -> s1 = s2.
Proof.
  unfold formatResponse, JSON_stringify. cbn [SerializeJSONProperty].
  unfold QuoteJSONString. intros E. inversion E as [Q].
  apply append_quote_cancel in Q.
  rewrite <- (unquote_quote_chars s1), <- (unquote_quote_chars s2). now rewrite Q.
Qed.

Lemma quoting_loses_nothing_witness :
  String "010"%char "a" = String "010"%char "a".
Proof.
  apply (quoting_loses_nothing (String "010"%char "a") (String "010"%char "a")).
  reflexivity.
Defined.

(** Whatever the character, what stands for it in the text is
    printable. *)
Lemma quote_char_printable (c : ascii) :
  Forall (fun x => 32 <= nat_of_ascii x) (list_ascii_of_string (quote_char c)).
Proof.
  destruct c as [[] [] [] [] [] [] [] []]; vm_compute;
    repeat (constructor; [cbv; repeat constructor|]); constructor.
Qed.

Lemma list_ascii_of_append (a b : string) :
  list_ascii_of_string (a ++ b)
  = (list_ascii_of_string a ++ list_ascii_of_string b)%list.
Proof.
  induction a as [|x a IH]; simpl; [reflexivity | now rewrite IH].
Qed.

(** X11.  The text of a string holds no control character: no line
    feed, no tab, nothing below the space.  A string result is one
    line, whatever it contains. *)
Theorem string_text_is_one_line (s text : string) :
  formatResponse (VString s) = Some text ->
  Forall (fun x => 32 <= nat_of_ascii x) (list_ascii_of_string text).
Proof.
  unfold formatResponse, JSON_stringify. cbn [SerializeJSONProperty].
  intros E. inversion E; subst text; clear E.
  unfold QuoteJSONString. rewrite !list_ascii_of_append.
  apply Forall_app; split; [repeat constructor; cbv; repeat constructor|].
  apply Forall_app; split; [|repeat constructor; cbv; repeat constructor].
  induction s as [|c s IH]; [constructor|].
  cbn [quote_chars]. rewrite list_ascii_of_append.
  apply Forall_app; split; [apply quote_char_printable | exact IH].
Qed.

Lemma string_text_is_one_line_witness :
  Forall (fun x => 32 <= nat_of_ascii x)
    (list_ascii_of_string (DQUOTE ++ "a" ++ BACKSLASH ++ "n" ++ "b" ++ DQUOTE)).
Proof.
  apply (string_text_is_one_line (String "a"%char (String "010"%char "b"))).
  reflexivity.
Defined.

(** *** The batch import *)

Lemma get_set_same (o : object) (key : string) (v : value) : get (set o key v) key = v.
Proof.
  induction o as [|[k old] o IH]; unfold get; simpl.
  - now rewrite String.eqb_refl.
  - destruct (String.eqb k key) eqn:E; simpl; rewrite E; [reflexivity | exact IH].
Qed.

Lemma get_set_other (o : object) (key other : string) (v : value) :
  key <> other -> get (set o key v) other = get o other.
Proof.
  intros N. induction o as [|[k old] o IH]; unfold get; simpl.
  - apply String.eqb_neq in N. now rewrite N.
  - destruct (String.eqb k key) eqn:E; simpl.
    + apply String.eqb_eq in E. subst k.
      apply String.eqb_neq in N. now rewrite N.
    + destruct (String.eqb k other); [reflexivity | exact IH].
Qed.

Lemma get_rest_without (keys : list string) (o : object) (other : string) :
  ~ In other keys -> get (rest_without keys o) other = get o other.
Proof.
  intros N. induction o as [|[k old] o IH]; [reflexivity|].
  unfold get, rest_without in *. simpl.
  destruct (existsb (String.eqb k) keys) eqn:E; simpl.
  - destruct (String.eqb k other) eqn:K; [|exact IH].
    apply String.eqb_eq in K. subst k.
    apply existsb_exists in E. destruct E as (x & I & X).
    apply String.eqb_eq in X. subst x. contradiction.
  - destruct (String.eqb k other); [reflexivity | exact IH].
Qed.

Lemma keys_of_set (o : object) (key : string) (v : value) (x : string) :
  In x (map fst (set o key v)) <-> In x (map fst o) \/ x = key.
Proof.
  induction o as [|[k old] o IH]; simpl.
  - intuition.
  - destruct (String.eqb k key) eqn:E; simpl.
    + apply String.eqb_eq in E. subst k. intuition.
    + rewrite IH. intuition.
Qed.

Lemma keys_of_rest_without (keys : list string) (o : object) (x : string) :
  In x (map fst (rest_without keys o)) <-> In x (map fst o) /\ ~ In x keys.
Proof.
  unfold rest_without. rewrite !in_map_iff. split.
  - intros (p & F & I). apply filter_In in I. destruct I as [I B].
    split; [exists p; auto|]. subst x. intros K.
    apply negb_true_iff in B.
    assert (T : existsb (String.eqb (fst p)) keys = true).
    { apply existsb_exists. exists (fst p). split; [exact K | apply String.eqb_refl]. }
    rewrite T in B. discriminate B.
  - intros [(p & F & I) K]. exists p. split; [exact F|].
    apply filter_In. split; [exact I|]. apply negb_true_iff.
    destruct (existsb (String.eqb (fst p)) keys) eqn:E; [|reflexivity].
    apply existsb_exists in E. destruct E as (y & Y & Q).
    apply String.eqb_eq in Q. subst. contradiction.
Qed.

Lemma unique_keys_set (o : object) (key : string) (v : value) :
  NoDup (map fst o) -> NoDup (map fst (set o key v)).
Proof.
  induction o as [|[k old] o IH]; simpl; intros U.
  - constructor; [intros [] | constructor].
  - inversion U as [|? ? N U']; subst.
    destruct (String.eqb k key) eqn:E; simpl.
    + constructor; assumption.
    + constructor; [|now apply IH].
      rewrite keys_of_set. intros [I | K]; [contradiction|].
      apply String.eqb_neq in E. now apply E.
Qed.

Lemma unique_keys_rest_without (keys : list string) (o : object) :
  NoDup (map fst o) -> NoDup (map fst (rest_without keys o)).
Proof.
  induction o as [|[k old] o IH]; simpl; intros U; [constructor|].
  inversion U as [|? ? N U']; subst.
  destruct (negb (existsb (String.eqb k) keys)); simpl; [|now apply IH].
  constructor; [|now apply IH].
  intros I. apply (keys_of_rest_without keys o k) in I. now destruct I.
Qed.

(** X12.  A reshaped subscriber has its [firstName] under [first_name]
    and its [lastName] under [last_name], and no property of the two
    old names.  A [first_name] or [last_name] it arrived with is
    overwritten: by [undefined] when the subscriber has no [firstName]
    or [lastName]. *)
Theorem imported_subscriber_renames (s : object) :
  get (Handlers.imported_subscriber s) "first_name" = get s "firstName"
  /\ get (Handlers.imported_subscriber s) "last_name" = get s "lastName"
  /\ ~ In "firstName" (map fst (Handlers.imported_subscriber s))
  /\ ~ In "lastName" (map fst (Handlers.imported_subscriber s)).
Proof.
  unfold Handlers.imported_subscriber. repeat split.
  - rewrite get_set_other by discriminate. apply get_set_same.
  - apply get_set_same.
  - rewrite !keys_of_set, keys_of_rest_without. simpl.
    intros [[[_ N] | E] | E]; try discriminate E. apply N. auto.
  - rewrite !keys_of_set, keys_of_rest_without. simpl.
    intros [[[_ N] | E] | E]; try discriminate E. apply N. auto.
Qed.

Example snake_case_name_is_overwritten :
  Handlers.imported_subscriber snake_subscriber
  = [("email", VString "ada@example.com"); ("first_name", VUndefined);
     ("last_name", VUndefined)].
Proof. reflexivity. Qed.

(** X13.  Every other property of a subscriber, its email, its tags and
    the ones the schema lets through, reaches the import with its
    value. *)
Theorem imported_subscriber_keeps_the_rest (s : object) (key : string) :
  ~ In key ["firstName"; "lastName"; "first_name"; "last_name"] ->
  get (Handlers.imported_subscriber s) key = get s key.
Proof.
  intros N. unfold Handlers.imported_subscriber.
  rewrite !get_set_other.
  - apply get_rest_without. intros [E | [E | []]]; apply N; subst; simpl; auto.
  - intros E. apply N. subst. simpl. auto.
  - intros E. apply N. subst. simpl. auto.
Qed.

Lemma imported_subscriber_keeps_the_rest_witness :
  get (Handlers.imported_subscriber sample_subscriber) "plan"
  = get sample_subscriber "plan".
Proof.
  apply imported_subscriber_keeps_the_rest.
  simpl. intuition discriminate.
Defined.

(** X14.  A reshaped subscriber is an object again: when no key occurs
    twice in the subscriber, none occurs twice in what is imported. *)
Theorem imported_subscriber_unique_keys (s : object) :
  NoDup (map fst s) -> NoDup (map fst (Handlers.imported_subscriber s)).
Proof.
  intros U. unfold Handlers.imported_subscriber.
  now apply unique_keys_set, unique_keys_set, unique_keys_rest_without.
Qed.

Lemma imported_subscriber_unique_keys_witness :
  NoDup (map fst (Handlers.imported_subscriber snake_subscriber)).
Proof.
  apply imported_subscriber_unique_keys.
  simpl. repeat constructor; simpl; intuition discriminate.
Defined.

(** X15.  The cap of the batch import is on the length alone: any list
    of more than 1000 subscribers is refused without a call, in every
    environment, and any list of at most 1000, the empty list
    included, is imported in one call that carries as many
    subscribers. *)
Theorem batch_import_threshold (w : World) (subscribers : list object) :
  (1000 < length subscribers ->
   invoke w (batch_import_subscribers subscribers)
   = (Normal (reply (Some "Error: Maximum 1000 subscribers per batch")), []))
  /\ (length subscribers <= 1000 ->
      credentials_missing w = false ->
      exists forwarded,
        snd (invoke w (batch_import_subscribers subscribers))
        = [Batch_importSubscribers forwarded]
        /\ length forwarded = length subscribers).
Proof.
  rewrite invoke_adapter. unfold adapter, argument_check, delegated. split.
  - intros L. apply Nat.ltb_lt in L. now rewrite L.
  - intros L C. apply Nat.ltb_ge in L. rewrite L, C.
    exists (map Handlers.imported_subscriber subscribers).
    split; [|apply length_map].
    now destruct (remote w (client_of w)
                    (Batch_importSubscribers
                       (map Handlers.imported_subscriber subscribers))).
Qed.

Lemma batch_import_threshold_witness :
  invoke bare (batch_import_subscribers (repeat sample_subscriber 1500))
  = (Normal (reply (Some "Error: Maximum 1000 subscribers per batch")), [])
  /\ exists forwarded,
       snd (invoke (configured accepting) (batch_import_subscribers []))
       = [Batch_importSubscribers forwarded]
       /\ length forwarded = 0.
Proof.
  split.
  - apply (batch_import_threshold bare (repeat sample_subscriber 1500)).
    vm_compute. lia.
  - apply (batch_import_threshold (configured accepting) []).
    + simpl. lia.
    + reflexivity.
Defined.

(** *** The either-identifier tools, the other way round *)

(** X16.  With the email left out, the lookup is keyed by the uuid;
    with the domain left out or empty, the blacklist check is keyed by
    the ip.  A uuid or an ip given as the empty string counts as not
    given: both tools then answer their guidance and delegate
    nothing. *)
Theorem second_identifier_used (w : World) (domain second : option string) :
  domain = None \/ domain = Some EmptyString ->
  (second = None \/ second = Some EmptyString ->
   invoke w (get_subscriber None second)
   = (Normal (reply (Some "Either email or uuid is required")), [])
   /\ invoke w (check_blacklist domain second)
      = (Normal (reply (Some "Either domain or ip is required")), []))
  /\ (forall id, second = Some id -> id <> EmptyString ->
      credentials_missing w = false ->
      snd (invoke w (get_subscriber None second))
      = [Subscribers_getSubscribers (by_uuid id)]
      /\ snd (invoke w (check_blacklist domain second))
         = [Experimental_getBlacklistStatus (by_ipAddress id)]).
Proof.
  intros F. assert (FF : falsy domain = true) by (destruct F; subst; reflexivity).
  rewrite !invoke_adapter. unfold adapter, argument_check, delegated, truthy.
  rewrite FF. cbn [falsy andb negb]. split.
  - intros S. assert (FS : falsy second = true) by (destruct S; subst; reflexivity).
    rewrite FS. split; reflexivity.
  - intros id -> N C. rewrite (non_empty_truthy id N), C. simpl. split.
    + now destruct (remote w (client_of w) (Subscribers_getSubscribers (by_uuid id))).
    + now destruct (remote w (client_of w)
                      (Experimental_getBlacklistStatus (by_ipAddress id))).
Qed.

Lemma second_identifier_used_witness :
  (invoke bare (get_subscriber None (Some EmptyString))
   = (Normal (reply (Some "Either email or uuid is required")), [])
   /\ invoke bare (check_blacklist (Some EmptyString) (Some EmptyString))
      = (Normal (reply (Some "Either domain or ip is required")), []))
  /\ snd (invoke (configured accepting) (get_subscriber None (Some "a1b2")))
     = [Subscribers_getSubscribers (by_uuid "a1b2")]
  /\ snd (invoke (configured accepting) (check_blacklist (Some EmptyString) (Some "a1b2")))
     = [Experimental_getBlacklistStatus (by_ipAddress "a1b2")].
Proof.
  split.
  - apply (proj1 (second_identifier_used bare (Some EmptyString) (Some EmptyString)
                    (or_intror eq_refl))).
    right. reflexivity.
  - apply (proj2 (second_identifier_used (configured accepting)
                    (Some EmptyString) (Some "a1b2") (or_intror eq_refl)) "a1b2").
    + reflexivity.
    + discriminate.
    + reflexivity.
Defined.

(** *** Broadcasts and purchases *)

(** X17.  With the credentials set, the broadcast tool delegates the
    creation of one broadcast.  Its type is [html] and its hourly rate
    1000 only when the caller left them out: a rate that is given, zero
    included, is the rate of the broadcast.  The sender and the tag
    lists go through as given, the tag lists unsplit. *)
Theorem create_broadcast_defaults (w : World) (name subject content : string)
    (type : option BroadcastType) (fromName fromEmail : string)
    (inclusiveTags exclusiveTags segmentId : option string)
    (batchSizePerHour : option number) :
  credentials_missing w = false ->
  exists b,
    snd (invoke w (create_broadcast name subject content type fromName fromEmail
                     inclusiveTags exclusiveTags segmentId batchSizePerHour))
    = [Broadcasts_createBroadcast [b]]
    /\ Bento.type b = match type with Some t => t | None => type_html end
    /\ batch_size_per_hour b
       = match batchSizePerHour with Some rate => rate | None => Finite 1000 end
    /\ (Bento.name b, broadcast_subject b, Bento.content b) = (name, subject, content)
    /\ (from_name b, from_email b) = (fromName, fromEmail)
    /\ (inclusive_tags b, exclusive_tags b, segment_id b)
       = (inclusiveTags, exclusiveTags, segmentId).
Proof.
  intros C. rewrite invoke_adapter. unfold adapter, argument_check. rewrite C.
  destruct (remote w (client_of w) _); simpl; eexists; repeat split.
Qed.

Lemma create_broadcast_defaults_witness :
  exists b,
    snd (invoke (configured accepting)
           (create_broadcast "Launch" "Hello" "<p>Hi</p>" None "Ada" "ada@example.com"
              (Some "lead,newsletter") None None (Some (Finite 0))))
    = [Broadcasts_createBroadcast [b]]
    /\ Bento.type b = type_html
    /\ batch_size_per_hour b = Finite 0
    /\ (Bento.name b, broadcast_subject b, Bento.content b)
       = ("Launch", "Hello", "<p>Hi</p>")
    /\ (from_name b, from_email b) = ("Ada", "ada@example.com")
    /\ (inclusive_tags b, exclusive_tags b, segment_id b)
       = (Some "lead,newsletter", None, None).
Proof.
  apply (create_broadcast_defaults (configured accepting)
           "Launch" "Hello" "<p>Hi</p>" None "Ada" "ada@example.com"
           (Some "lead,newsletter") None None (Some (Finite 0))).
  reflexivity.
Defined.

(** X18.  A currency given to the purchase tool is the currency of the
    call, the empty string included.  A cart that is left out stays
    out; a cart that is given keeps its checkout url and its line
    items: as many, in the same order, each with its five fields under
    their snake-case names. *)
Theorem track_purchase_forwards (w : World) (email orderId currency : string)
    (amount : number) (cart : option Args.Cart) :
  credentials_missing w = false ->
  exists details,
    snd (invoke w (track_purchase email orderId amount (Some currency) cart))
    = [trackPurchase email details]
    /\ value_currency details = currency
    /\ (cart = None -> Bento.cart details = None)
    /\ (forall c, cart = Some c ->
        exists forwarded,
          Bento.cart details = Some forwarded
          /\ abandoned_checkout_url forwarded = Args.abandonedCheckoutUrl c
          /\ (Args.items c = None -> items forwarded = None)
          /\ (forall lines, Args.items c = Some lines ->
              exists sent,
                items forwarded = Some sent
                /\ length sent = length lines
                /\ forall n line,
                     nth_error lines n = Some line ->
                     exists item,
                       nth_error sent n = Some item
                       /\ product_id item = Args.productId line
                       /\ product_sku item = Args.productSku line
                       /\ product_name item = Args.productName line
                       /\ quantity item = Args.quantity line
                       /\ product_price item = Args.productPrice line)).
Proof.
  intros C. rewrite invoke_adapter. unfold adapter, argument_check. rewrite C.
  eexists. split.
  { destruct (remote w (client_of w) _); reflexivity. }
  simpl. split; [reflexivity|]. split.
  - now intros ->.
  - intros c ->. eexists. split; [reflexivity|]. simpl.
    split; [reflexivity|]. split.
    + now intros ->.
    + intros lines ->. simpl. eexists. split; [reflexivity|].
      split; [apply length_map|].
      intros n line L. exists (Handlers.purchase_item line).
      split; [now apply map_nth_error|]. repeat split.
Qed.

Lemma track_purchase_forwards_witness :
  exists details,
    snd (invoke (configured accepting)
           (track_purchase "ada@example.com" "order-1" (Finite 500) (Some "EUR") None))
    = [trackPurchase "ada@example.com" details]
    /\ value_currency details = "EUR"
    /\ Bento.cart details = None.
Proof.
  destruct (track_purchase_forwards (configured accepting)
              "ada@example.com" "order-1" "EUR" (Finite 500) None eq_refl)
    as (details & L & V & N & _).
  exists details. split; [exact L|]. split; [exact V | exact (N eq_refl)].
Defined.

(** *** Starting the server *)

(** X19.  The server exits at start exactly when the transport cannot
    be connected, and then with status 1, after one [Fatal error:]
    line that carries the fault.  Connected, it prints its one
    running line and does not exit. *)
Theorem start_outcome (connect : Completion unit) :
  (forall e, connect = Throw e ->
     Startup.start connect Startup.fresh
     = {| Startup.stderr := [[Startup.Text "Fatal error:"; Startup.Fault e]];
          Startup.exit_code := Some 1%Z |})
  /\ (Startup.exit_code (Startup.start connect Startup.fresh) = None ->
      exists u,
        connect = Normal u
        /\ Startup.stderr (Startup.start connect Startup.fresh)
           = [[Startup.Text "Bento MCP Server running on stdio"]])
  /\ (Startup.exit_code (Startup.start connect Startup.fresh) = None
      \/ Startup.exit_code (Startup.start connect Startup.fresh) = Some 1%Z).
Proof.
  destruct connect as [u|e]; cbv; repeat split; auto.
  - discriminate.
  - intros _. exists u. auto.
  - intros e0 E. now inversion E.
  - discriminate.
Qed.

Lemma start_outcome_witness :
  Startup.start (Throw (ErrorObject "EPIPE")) Startup.fresh
  = {| Startup.stderr :=
         [[Startup.Text "Fatal error:"; Startup.Fault (ErrorObject "EPIPE")]];
       Startup.exit_code := Some 1%Z |}.
Proof.
  exact (proj1 (start_outcome (Throw (ErrorObject "EPIPE")))
           (ErrorObject "EPIPE") eq_refl).
Defined.

(** *** Counts *)

Lemma above_zero (result : number) :
  number_gt result (Finite 0) = true
  <-> result = Infinity \/ exists z, result = Finite z /\ (0 < z)%Z.
Proof.
  destruct result as [z| | |]; simpl.
  - rewrite Z.ltb_lt. split.
    + intros H. right. now exists z.
    + intros [H | (y & E & H)]; [discriminate H | now inversion E; subst].
  - split; [discriminate | intros [H | (y & E & _)]; discriminate].
  - split; auto.
  - split; [discriminate | intros [H | (y & E & _)]; discriminate].
Qed.

(** X20.  The email tool reports success only for a count above zero:
    a send that resolves to zero, to a negative count or to [NaN] is
    answered [Failed to send email], although no fault was raised. *)
Theorem send_email_success_needs_a_count (w : World) (to from subject htmlBody : string)
    (transactional : bool) (personalizations : option (list (string * string)))
    (result : number) :
  credentials_missing w = false ->
  remote w (client_of w)
    (Batch_sendTransactionalEmails
       [ {| Bento.to := to;
            Bento.from := from;
            Bento.subject := subject;
            html_body := htmlBody;
            Bento.transactional := transactional;
            Bento.personalizations := personalizations |} ])
  = Normal result ->
  (fst (invoke w (send_email to from subject htmlBody (Some transactional)
                    personalizations))
   = Normal (reply (Some "Email sent successfully"))
   <-> result = Infinity \/ exists z, result = Finite z /\ (0 < z)%Z)
  /\ (fst (invoke w (send_email to from subject htmlBody (Some transactional)
                       personalizations))
      = Normal (reply (Some "Failed to send email"))
      <-> ~ (result = Infinity \/ exists z, result = Finite z /\ (0 < z)%Z)).
Proof.
  intros C R. rewrite invoke_adapter.
  unfold adapter, argument_check, delegated, rendering, zod_default.
  rewrite C, R. cbn [fst]. rewrite <- above_zero.
  destruct (number_gt result (Finite 0)); split; split;
    intros H; try reflexivity; try discriminate H; auto.
  now elim H.
Qed.

Lemma send_email_success_needs_a_count_witness :
  fst (invoke (configured (sending (-1)))
         (send_email "ada@example.com" "team@example.com" "Receipt" "<p>Thanks</p>"
            (Some false) None))
  = Normal (reply (Some "Failed to send email")).
Proof.
  apply (send_email_success_needs_a_count (configured (sending (-1)))
           "ada@example.com" "team@example.com" "Receipt" "<p>Thanks</p>"
           false None (Finite (-1)) eq_refl eq_refl).
  intros [H | (z & E & H)]; [discriminate H|].
  inversion E; subst. lia.
Defined.
